(** * EGA Trader: the economic simulation core of [game.py]

    A shallow embedding of the pricing model ([Market.adjust_price]), the
    position metric ([Position.distance_to]) and the autonomous trader
    ([AITrader]): trend analysis, the buy and sell policy, trade execution,
    opportunity scoring, destination planning and the single-step movement.

    Numbers.  Python [int] is [Z].  Python [float] is modelled by the exact
    rationals [Q]: the arithmetic is the source's, without the rounding of
    binary64, and an [int] of any size converts exactly.  Float comparison
    ([<], [>], [>=], [==]) is the order of [Q] up to [Qeq], as booleans.
    [ZeroDivisionError], the one exception the core can raise on such
    numbers, is modelled.

    State.  Methods that mutate [self] return the object after the call.
    [random.random()] is an argument: the value a call draws, when it draws.

    Dictionaries keyed by [CommodityType] are built by the source with all
    six keys, in declaration order ([_generate_market], [spawn_ai_traders],
    [_create_player_ship]); they are total maps here, iterated in that
    order.  The trade memory, keyed by quadrant, is an association list in
    insertion order. *)

From Stdlib Require Import ZArith QArith Qround Qabs Bool List String Lia Lqa.
Import ListNotations.

Open Scope Z_scope.

(* ------------------------------------------------------------------ *)
(** ** Python numerics *)

Module Py.

(** Exceptions the modelled code can raise. *)
Inductive exn : Type :=
| ZeroDivisionError.

(** The outcome of a call: a value, or a raised exception. *)
Inductive result (A : Type) : Type :=
| Ok (a : A)
| Raise (e : exn).
Arguments Ok {A} a.
Arguments Raise {A} e.

Definition bind {A B : Type} (r : result A) (k : A -> result B) : result B :=
  match r with
  | Ok a => k a
  | Raise e => Raise e
  end.

(** [x < y] on floats. *)
Definition ltb (x y : Q) : bool := negb (Qle_bool y x).
(** [x > y] on floats. *)
Definition gtb (x y : Q) : bool := ltb y x.
(** [x >= y] on floats. *)
Definition geb (x y : Q) : bool := Qle_bool y x.
(** [x == y] and [x != y] on floats. *)
Definition eqb (x y : Q) : bool := Qeq_bool x y.

(** [min(a, b)]: the first argument unless the second is strictly smaller. *)
Definition min (a b : Q) : Q := if ltb b a then b else a.
(** [max(a, b)]: the first argument unless the second is strictly larger. *)
Definition max (a b : Q) : Q := if gtb b a then b else a.

(** [x / y] on floats. *)
Definition div (x y : Q) : result Q :=
  if eqb y 0 then Raise ZeroDivisionError else Ok (x / y)%Q.

(** [int(x)]: truncation toward zero. *)
Definition int (x : Q) : Z := Z.quot (Qnum x) (Zpos (Qden x)).

(** [sum(xs)] of a list of floats. *)
Definition sum (xs : list Q) : Q := fold_left Qplus xs 0%Q.

(** [len(xs)] as a number. *)
Definition len {A : Type} (xs : list A) : Z := Z.of_nat (List.length xs).

(** [xs[-n:]]: the last [n] items, the whole list when it is shorter. *)
Definition last_n {A : Type} (n : nat) (xs : list A) : list A :=
  skipn (List.length xs - n) xs.

(** [xs[:-n]] for [n > 0]: all but the last [n] items. *)
Definition but_last_n {A : Type} (n : nat) (xs : list A) : list A :=
  firstn (List.length xs - n) xs.

End Py.

Notation "x <- r ;; k" := (Py.bind r (fun x => k))
  (at level 61, r at next level, right associativity).

(* ------------------------------------------------------------------ *)
(** ** Enumerations *)

Inductive StationType : Type :=
| TRADING_POST | RESEARCH_STATION | MINING_COLONY | MANUFACTURING_HUB.

Inductive CommodityType : Type :=
| FOOD | MINERALS | TECHNOLOGY | MEDICINE | LUXURIES | FUEL.

Inductive AIPersonality : Type :=
| CAUTIOUS | AGGRESSIVE | OPPORTUNIST | SPECIALIST.

Definition StationType_eqb (a b : StationType) : bool :=
  match a, b with
  | TRADING_POST, TRADING_POST | RESEARCH_STATION, RESEARCH_STATION
  | MINING_COLONY, MINING_COLONY | MANUFACTURING_HUB, MANUFACTURING_HUB => true
  | _, _ => false
  end.

Definition CommodityType_eqb (a b : CommodityType) : bool :=
  match a, b with
  | FOOD, FOOD | MINERALS, MINERALS | TECHNOLOGY, TECHNOLOGY
  | MEDICINE, MEDICINE | LUXURIES, LUXURIES | FUEL, FUEL => true
  | _, _ => false
  end.

Definition AIPersonality_eqb (a b : AIPersonality) : bool :=
  match a, b with
  | CAUTIOUS, CAUTIOUS | AGGRESSIVE, AGGRESSIVE
  | OPPORTUNIST, OPPORTUNIST | SPECIALIST, SPECIALIST => true
  | _, _ => false
  end.

(** [for commodity in CommodityType]: the members in declaration order. *)
Definition all_commodities : list CommodityType :=
  [FOOD; MINERALS; TECHNOLOGY; MEDICINE; LUXURIES; FUEL].

(** A dictionary holding every commodity as a key. *)
Definition cdict (A : Type) : Type := CommodityType -> A.

(** [d[c] = v]. *)
Definition cset {A : Type} (d : cdict A) (c : CommodityType) (v : A) : cdict A :=
  fun k => if CommodityType_eqb k c then v else d k.

(** [commodity in xs] for a list of commodities. *)
Definition cmem (c : CommodityType) (xs : list CommodityType) : bool :=
  existsb (CommodityType_eqb c) xs.

(* ------------------------------------------------------------------ *)
(** ** Position *)

Record Position : Type := mkPosition {
  quadrant_x : Z;
  quadrant_y : Z;
  sector_x : Z;
  sector_y : Z
}.

(** The dataclass equality of two positions. *)
Definition Position_eqb (p q : Position) : bool :=
  (quadrant_x p =? quadrant_x q) && (quadrant_y p =? quadrant_y q) &&
  (sector_x p =? sector_x q) && (sector_y p =? sector_y q).

Definition distance_to (self other : Position) : Z :=
  let q_dist := Z.abs (quadrant_x self - quadrant_x other)
                + Z.abs (quadrant_y self - quadrant_y other) in
  if q_dist =? 0 then
    Z.abs (sector_x self - sector_x other) + Z.abs (sector_y self - sector_y other)
  else q_dist * 8.

(** The metric of the data model, in its own words: the Manhattan distance
    between quadrants times 8 when the quadrants differ, else the Manhattan
    distance between sectors. *)
Definition two_tier_metric (p q : Position) : Z :=
  if (quadrant_x p =? quadrant_x q) && (quadrant_y p =? quadrant_y q) then
    Z.abs (sector_x p - sector_x q) + Z.abs (sector_y p - sector_y q)
  else
    (Z.abs (quadrant_x p - quadrant_x q) + Z.abs (quadrant_y p - quadrant_y q)) * 8.

(* ------------------------------------------------------------------ *)
(** ** Market *)

Record Market : Type := mkMarket {
  commodities : cdict Q;      (* commodity -> current price *)
  supply_demand : cdict Q;    (* base multiplier for station type *)
  stock_levels : cdict Z      (* how much the station has in stock *)
}.

Definition _get_base_price (commodity : CommodityType) : Z :=
  match commodity with
  | FOOD => 100
  | MINERALS => 150
  | TECHNOLOGY => 500
  | MEDICINE => 300
  | LUXURIES => 800
  | FUEL => 80
  end.

(** [Market.adjust_price]: positive change = more supply (lower price). *)
Definition adjust_price (self : Market) (commodity : CommodityType)
    (quantity_change : Z) : Market :=
  let current_stock := stock_levels self commodity in
  let price_impact :=
    (inject_Z (- quantity_change) / inject_Z (Z.max 100 current_stock) * (1 # 10))%Q in
  let current_price := commodities self commodity in
  let new_price := (current_price * (1 + price_impact))%Q in
  let base_price := _get_base_price commodity in
  let min_price := (inject_Z base_price * (1 # 2))%Q in
  let max_price := (inject_Z base_price * 2)%Q in
  {| commodities :=
       cset (commodities self) commodity (Py.max min_price (Py.min max_price new_price));
     supply_demand := supply_demand self;
     stock_levels :=
       cset (stock_levels self) commodity (Z.max 0 (current_stock + quantity_change)) |}.

(* ------------------------------------------------------------------ *)
(** ** Station, Ship, Galaxy *)

(** A record field is a global name: the [name] and [position] of a station
    are [station_name] and [station_position]. *)
Record Station : Type := mkStation {
  station_name : string;
  station_type : StationType;
  station_position : Position;
  market : Market
}.

(** The fields of [Ship] the trading core reads or writes.  An [AITrader]
    is only built by [spawn_ai_traders], which gives its ship a personality
    and a list of preferred commodities, so neither is optional here. *)
Record Ship : Type := mkShip {
  position : Position;
  cargo_hold : cdict Z;
  max_cargo : Z;
  credits : Q;
  destination : option Position;
  last_trade_time : Q;
  personality : AIPersonality;
  preferred_commodities : list CommodityType;
  risk_tolerance : Q;     (* 0.0 = very cautious, 1.0 = very risky *)
  patience : Q            (* how long to wait for better prices *)
}.

Definition total_cargo (self : Ship) : Z :=
  fold_left Z.add (map (cargo_hold self) all_commodities) 0.

Definition cargo_space_remaining (self : Ship) : Z :=
  max_cargo self - total_cargo self.

Record Galaxy : Type := mkGalaxy {
  stations : list Station
}.

(** Field updates of the mutable [Ship] object. *)
Definition set_position (s : Ship) (p : Position) : Ship :=
  mkShip p (cargo_hold s) (max_cargo s) (credits s) (destination s)
    (last_trade_time s) (personality s) (preferred_commodities s)
    (risk_tolerance s) (patience s).

Definition set_cargo_hold (s : Ship) (h : cdict Z) : Ship :=
  mkShip (position s) h (max_cargo s) (credits s) (destination s)
    (last_trade_time s) (personality s) (preferred_commodities s)
    (risk_tolerance s) (patience s).

Definition set_credits (s : Ship) (c : Q) : Ship :=
  mkShip (position s) (cargo_hold s) (max_cargo s) c (destination s)
    (last_trade_time s) (personality s) (preferred_commodities s)
    (risk_tolerance s) (patience s).

Definition set_destination (s : Ship) (d : option Position) : Ship :=
  mkShip (position s) (cargo_hold s) (max_cargo s) (credits s) d
    (last_trade_time s) (personality s) (preferred_commodities s)
    (risk_tolerance s) (patience s).

Definition set_last_trade_time (s : Ship) (t : Q) : Ship :=
  mkShip (position s) (cargo_hold s) (max_cargo s) (credits s) (destination s)
    t (personality s) (preferred_commodities s)
    (risk_tolerance s) (patience s).

Definition set_market (st : Station) (m : Market) : Station :=
  mkStation (station_name st) (station_type st) (station_position st) m.

(** The dataclass equality of markets and of stations ([==] field by field;
    dictionaries are equal when they agree on every key). *)
Definition Market_eqb (a b : Market) : bool :=
  forallb (fun c => Py.eqb (commodities a c) (commodities b c)) all_commodities &&
  forallb (fun c => Py.eqb (supply_demand a c) (supply_demand b c)) all_commodities &&
  forallb (fun c => stock_levels a c =? stock_levels b c) all_commodities.

Definition Station_eqb (a b : Station) : bool :=
  String.eqb (station_name a) (station_name b) &&
  StationType_eqb (station_type a) (station_type b) &&
  Position_eqb (station_position a) (station_position b) &&
  Market_eqb (market a) (market b).

(* ------------------------------------------------------------------ *)
(** ** AITrader *)

(** What the trader remembers of one quadrant: per commodity, the price
    seen and the time it was seen. *)
Definition pos_data : Type := cdict (option (Q * Q)).

Record AITrader : Type := mkAITrader {
  ship : Ship;
  trade_memory : list ((Z * Z) * pos_data);   (* in insertion order *)
  market_analysis : cdict (option Q);         (* predicted price trends *)
  profit_history : list Q;
  last_analysis_time : Q
}.

Definition set_ship (t : AITrader) (s : Ship) : AITrader :=
  mkAITrader s (trade_memory t) (market_analysis t) (profit_history t)
    (last_analysis_time t).

Definition set_trade_memory (t : AITrader) (m : list ((Z * Z) * pos_data)) : AITrader :=
  mkAITrader (ship t) m (market_analysis t) (profit_history t)
    (last_analysis_time t).

Definition set_market_analysis (t : AITrader) (a : cdict (option Q)) : AITrader :=
  mkAITrader (ship t) (trade_memory t) a (profit_history t)
    (last_analysis_time t).

Definition set_profit_history (t : AITrader) (h : list Q) : AITrader :=
  mkAITrader (ship t) (trade_memory t) (market_analysis t) h
    (last_analysis_time t).

(** [_get_current_station]: the first station at the ship's position. *)
Definition _get_current_station (galaxy : Galaxy) (self : AITrader) : option Station :=
  find (fun station =>
          (quadrant_x (station_position station) =? quadrant_x (position (ship self))) &&
          (quadrant_y (station_position station) =? quadrant_y (position (ship self))) &&
          (sector_x (station_position station) =? sector_x (position (ship self))) &&
          (sector_y (station_position station) =? sector_y (position (ship self))))
       (stations galaxy).

(** [memory[key] = value] on an insertion-ordered dictionary: an existing
    key keeps its place, a new key goes last. *)
Fixpoint memory_set (key : Z * Z) (value : pos_data)
    (memory : list ((Z * Z) * pos_data)) : list ((Z * Z) * pos_data) :=
  match memory with
  | [] => [(key, value)]
  | (k, v) :: rest =>
      if (fst k =? fst key) && (snd k =? snd key) then (k, value) :: rest
      else (k, v) :: memory_set key value rest
  end.

Definition _update_trade_memory (galaxy : Galaxy) (self : AITrader)
    (game_time : Q) : AITrader :=
  match _get_current_station galaxy self with
  | Some station =>
      let pos_key := (quadrant_x (station_position station),
                      quadrant_y (station_position station)) in
      let price_data : pos_data :=
        fun commodity => Some (commodities (market station) commodity, game_time) in
      set_trade_memory self (memory_set pos_key price_data (trade_memory self))
  | None => self
  end.

(** The inner loop of [_analyze_market_trends]: the prices remembered for
    one commodity, over [trade_memory.values()]. *)
Definition remembered_prices (self : AITrader) (commodity : CommodityType) : list Q :=
  flat_map (fun entry : (Z * Z) * pos_data =>
              match snd entry commodity with
              | Some (price, timestamp) => [price]
              | None => []
              end)
           (trade_memory self).

(** The trend computed from at least two prices. *)
Definition price_trend (prices : list Q) : Q :=
  let recent_avg :=
    if 3 <=? Py.len prices
    then (Py.sum (Py.last_n 3 prices) / inject_Z (Py.len (Py.last_n 3 prices)))%Q
    else last prices 0%Q in
  let older_avg :=
    if 3 <? Py.len prices
    then (Py.sum (Py.but_last_n 3 prices) / inject_Z (Py.len (Py.but_last_n 3 prices)))%Q
    else hd 0%Q prices in
  if Py.gtb older_avg 0 then ((recent_avg - older_avg) / older_avg)%Q else 0%Q.

(** The body of the commodity loop of [_analyze_market_trends]. *)
Definition analyze_step (self : AITrader) (commodity : CommodityType) : AITrader :=
  let prices := remembered_prices self commodity in
  if 2 <=? Py.len prices then
    set_market_analysis self
      (cset (market_analysis self) commodity (Some (price_trend prices)))
  else self.

Definition _analyze_market_trends (self : AITrader) : AITrader :=
  fold_left analyze_step all_commodities self.

(** [_should_sell_commodity] *)
Definition _should_sell_commodity (self : AITrader) (commodity : CommodityType)
    (station : Station) (game_time : Q) : bool :=
  let sell_price := commodities (market station) commodity in
  let base_price := inject_Z (_get_base_price commodity) in
  let min_profit_margin :=
    match personality (ship self) with
    | CAUTIOUS => 5 # 100
    | AGGRESSIVE => 15 # 100
    | OPPORTUNIST => 8 # 100
    | SPECIALIST =>
        if cmem commodity (preferred_commodities (ship self))
        then 12 # 100 else 3 # 100
    end in
  let profit_margin := ((sell_price - base_price) / base_price)%Q in
  let trend := match market_analysis self commodity with
               | Some t => t
               | None => 0%Q
               end in
  if Py.gtb trend (1 # 10) && Py.gtb (patience (ship self)) (7 # 10) then false
  else Py.geb profit_margin min_profit_margin.

(** [_should_buy_commodity] *)
Definition _should_buy_commodity (self : AITrader) (commodity : CommodityType)
    (station : Station) (game_time : Q) : Py.result Z :=
  let buy_price := commodities (market station) commodity in
  let base_price := inject_Z (_get_base_price commodity) in
  let available_funds := (credits (ship self) * risk_tolerance (ship self))%Q in
  let price_ratio := (buy_price / base_price)%Q in
  if AIPersonality_eqb (personality (ship self)) CAUTIOUS && Py.gtb price_ratio (105 # 100)
  then Py.Ok 0
  else if AIPersonality_eqb (personality (ship self)) AGGRESSIVE
          && Py.gtb price_ratio (125 # 100)
  then Py.Ok 0
  else if Py.gtb price_ratio (115 # 100)
  then Py.Ok 0
  else if AIPersonality_eqb (personality (ship self)) SPECIALIST
          && negb (cmem commodity (preferred_commodities (ship self)))
  then Py.Ok 0
  else
    quotient <- Py.div available_funds buy_price ;;
    let max_affordable := Py.int quotient in
    let max_space := cargo_space_remaining (ship self) in
    let max_stock := stock_levels (market station) commodity in
    let buy_amount :=
      match personality (ship self) with
      | CAUTIOUS => Z.min 5 (Z.min max_affordable (Z.min max_space max_stock))
      | AGGRESSIVE => Z.min 25 (Z.min max_affordable (Z.min max_space max_stock))
      | OPPORTUNIST =>
          if Py.ltb price_ratio (9 # 10)
          then Z.min 20 (Z.min max_affordable (Z.min max_space max_stock))
          else Z.min 10 (Z.min max_affordable (Z.min max_space max_stock))
      | SPECIALIST =>
          if cmem commodity (preferred_commodities (ship self))
          then Z.min 30 (Z.min max_affordable (Z.min max_space max_stock))
          else 0
      end in
    Py.Ok (Z.max 0 buy_amount).

(** One pass of the selling loop of [_trade_at_station], for one item of the
    snapshot [list(self.ship.cargo_hold.items())]; the state carried along
    is the trader, the station it is docked at, and [total_profit]. *)
Definition sell_step (game_time : Q) (acc : AITrader * Station * Q)
    (item : CommodityType * Z) : AITrader * Station * Q :=
  let '(self, station, total_profit) := acc in
  let '(commodity, quantity) := item in
  if (0 <? quantity) && _should_sell_commodity self commodity station game_time then
    let sell_price := commodities (market station) commodity in
    let base_price := inject_Z (_get_base_price commodity) in
    let sell_amount :=
      match personality (ship self) with
      | CAUTIOUS => Z.min quantity 5
      | AGGRESSIVE => Z.min quantity 15
      | _ => Z.min quantity 10
      end in
    let ship1 :=
      set_cargo_hold (ship self)
        (cset (cargo_hold (ship self)) commodity
           (cargo_hold (ship self) commodity - sell_amount)) in
    let profit := (inject_Z sell_amount * (sell_price - base_price))%Q in
    let ship2 := set_credits ship1 (credits ship1 + inject_Z sell_amount * sell_price)%Q in
    let station' := set_market station (adjust_price (market station) commodity sell_amount) in
    (set_ship self ship2, station', (total_profit + profit)%Q)
  else acc.

(** The buying loop of [_trade_at_station] over the commodities left to
    visit.  An exception raised by [_should_buy_commodity] ends the loop
    with the state reached so far. *)
Fixpoint buy_loop (game_time : Q) (todo : list CommodityType)
    (self : AITrader) (station : Station) : AITrader * Station * option Py.exn :=
  match todo with
  | [] => (self, station, None)
  | commodity :: rest =>
      match _should_buy_commodity self commodity station game_time with
      | Py.Raise e => (self, station, Some e)
      | Py.Ok buy_amount =>
          if 0 <? buy_amount then
            let buy_price := commodities (market station) commodity in
            let total_cost := (inject_Z buy_amount * buy_price)%Q in
            let ship1 :=
              set_cargo_hold (ship self)
                (cset (cargo_hold (ship self)) commodity
                   (cargo_hold (ship self) commodity + buy_amount)) in
            let ship2 := set_credits ship1 (credits ship1 - total_cost)%Q in
            let station' :=
              set_market station (adjust_price (market station) commodity (- buy_amount)) in
            buy_loop game_time rest (set_ship self ship2) station'
          else buy_loop game_time rest self station
      end
  end.

(** [_trade_at_station]: the trader and the station after the call, and the
    exception that ended it, if any. *)
Definition _trade_at_station (self : AITrader) (station : Station)
    (game_time : Q) : AITrader * Station * option Py.exn :=
  let trade_interval := (2 - risk_tolerance (ship self))%Q in
  if Py.ltb (game_time - last_trade_time (ship self)) trade_interval then
    (self, station, None)
  else
    let items := map (fun c => (c, cargo_hold (ship self) c)) all_commodities in
    let '(self1, station1, total_profit) :=
      fold_left (sell_step game_time) items (self, station, 0%Q) in
    match buy_loop game_time all_commodities self1 station1 with
    | (self2, station2, Some e) => (self2, station2, Some e)
    | (self2, station2, None) =>
        let self3 :=
          if negb (Py.eqb total_profit 0) then
            let history := profit_history self2 ++ [total_profit] in
            set_profit_history self2
              (if 10 <? Py.len history then tl history else history)
          else self2 in
        (set_ship self3 (set_last_trade_time (ship self3) game_time), station2, None)
    end.

(** [_evaluate_station_opportunity] *)
Definition _evaluate_station_opportunity (galaxy : Galaxy) (self : AITrader)
    (station : Station) (game_time : Q) : Q :=
  let score := 0%Q in
  let distance := distance_to (position (ship self)) (station_position station) in
  (* selling opportunities *)
  let score :=
    fold_left
      (fun score commodity =>
         let quantity := cargo_hold (ship self) commodity in
         if 0 <? quantity then
           let sell_price := commodities (market station) commodity in
           let base_price := inject_Z (_get_base_price commodity) in
           let profit_potential := (inject_Z quantity * (sell_price - base_price))%Q in
           (score + profit_potential)%Q
         else score)
      all_commodities score in
  (* buying opportunities *)
  let score :=
    fold_left
      (fun score commodity =>
         let buy_price := commodities (market station) commodity in
         let best_sell_price :=
           fold_left
             (fun best_sell_price other_station =>
                if negb (Station_eqb other_station station) then
                  Py.max best_sell_price (commodities (market other_station) commodity)
                else best_sell_price)
             (stations galaxy) 0%Q in
         if Py.gtb best_sell_price (buy_price * (11 # 10))%Q then
           (score + (best_sell_price - buy_price) * 10)%Q
         else score)
      all_commodities score in
  (* distance and personality *)
  let distance_penalty := (inject_Z distance * (1 - patience (ship self)))%Q in
  let score := (score - distance_penalty)%Q in
  if AIPersonality_eqb (personality (ship self)) SPECIALIST then
    if StationType_eqb (station_type station) MINING_COLONY
       && cmem MINERALS (preferred_commodities (ship self))
    then (score * (15 # 10))%Q
    else if StationType_eqb (station_type station) RESEARCH_STATION
            && cmem MEDICINE (preferred_commodities (ship self))
    then (score * (15 # 10))%Q
    else score
  else score.

(** One pass of the station loop of [_plan_movement]; the state carried
    along is [(best_station, best_score)]. *)
Definition plan_step (galaxy : Galaxy) (self : AITrader) (game_time : Q)
    (acc : option Station * Q) (station : Station) : option Station * Q :=
  let '(best_station, best_score) := acc in
  if Position_eqb (station_position station) (position (ship self)) then acc
  else
    let score := _evaluate_station_opportunity galaxy self station game_time in
    if Py.gtb score best_score then (Some station, score) else acc.

(** [_plan_movement]; [roll] is the value [random.random()] returns when the
    ship has a destination (it is not drawn otherwise). *)
Definition _plan_movement (galaxy : Galaxy) (self : AITrader)
    (game_time : Q) (roll : Q) : AITrader :=
  let change_chance := ((5 # 100) + risk_tolerance (ship self) * (15 # 100))%Q in
  if match destination (ship self) with None => true | Some _ => false end
     || Py.ltb roll change_chance
  then
    let '(best_station, best_score) :=
      fold_left (plan_step galaxy self game_time) (stations galaxy) (None, 0%Q) in
    match best_station with
    | Some station =>
        set_ship self (set_destination (ship self) (Some (station_position station)))
    | None => self
    end
  else self.

(** The detour loop of [_move_ship]: the position of the first station
    within distance 2, not at the ship's position, whose opportunity is
    above 100; [dest] when there is none. *)
Fixpoint detour (galaxy : Galaxy) (self : AITrader) (current : Position)
    (todo : list Station) (dest : Position) : Position :=
  match todo with
  | [] => dest
  | station :: rest =>
      if (distance_to (station_position station) current <=? 2)
         && negb (Position_eqb (station_position station) current)
      then
        let opportunity_score := _evaluate_station_opportunity galaxy self station 0 in
        if Py.gtb opportunity_score 100 then station_position station
        else detour galaxy self current rest dest
      else detour galaxy self current rest dest
  end.

(** Where this step of [_move_ship] heads: the stored destination, or the
    detour an Opportunist takes.  [roll] is the value [random.random()]
    returns for an Opportunist (it is not drawn for the others). *)
Definition move_target (galaxy : Galaxy) (self : AITrader) (roll : Q)
    (dest : Position) : Position :=
  if AIPersonality_eqb (personality (ship self)) OPPORTUNIST && Py.ltb roll (1 # 10)
  then detour galaxy self (position (ship self)) (stations galaxy) dest
  else dest.

(** [_move_ship] *)
Definition _move_ship (galaxy : Galaxy) (self : AITrader) (roll : Q) : AITrader :=
  match destination (ship self) with
  | None => self
  | Some stored =>
      let current := position (ship self) in
      let dest := move_target galaxy self roll stored in
      let move (p : Position) := set_ship self (set_position (ship self) p) in
      if negb (quadrant_x current =? quadrant_x dest) then
        if quadrant_x current <? quadrant_x dest
        then move (mkPosition (quadrant_x current + 1) (quadrant_y current)
                     (sector_x current) (sector_y current))
        else move (mkPosition (quadrant_x current - 1) (quadrant_y current)
                     (sector_x current) (sector_y current))
      else if negb (quadrant_y current =? quadrant_y dest) then
        if quadrant_y current <? quadrant_y dest
        then move (mkPosition (quadrant_x current) (quadrant_y current + 1)
                     (sector_x current) (sector_y current))
        else move (mkPosition (quadrant_x current) (quadrant_y current - 1)
                     (sector_x current) (sector_y current))
      else if negb (sector_x current =? sector_x dest) then
        if sector_x current <? sector_x dest
        then move (mkPosition (quadrant_x current) (quadrant_y current)
                     (sector_x current + 1) (sector_y current))
        else move (mkPosition (quadrant_x current) (quadrant_y current)
                     (sector_x current - 1) (sector_y current))
      else if negb (sector_y current =? sector_y dest) then
        if sector_y current <? sector_y dest
        then move (mkPosition (quadrant_x current) (quadrant_y current)
                     (sector_x current) (sector_y current + 1))
        else move (mkPosition (quadrant_x current) (quadrant_y current)
                     (sector_x current) (sector_y current - 1))
      else
        (* reached destination *)
        set_ship self (set_destination (ship self) None)
  end.


(* ------------------------------------------------------------------ *)
(** ** World generation

    [random.randint(a, b)] and [random.uniform(a, b)] are arguments: the
    values drawn, one per commodity where the source draws per commodity.
    What a draw can be (between [a] and [b], bounds included) is stated
    where a property needs it. *)

(** The values drawn while [_generate_market] builds one market. *)
Record MarketDraws : Type := mkMarketDraws {
  supply_draw : cdict Q;     (* random.uniform(0.9, 1.1): trading posts only *)
  stock_draw : cdict Z;      (* random.randint(a, b): see [stock_range] *)
  variance_draw : cdict Q    (* random.uniform(0.9, 1.1) *)
}.

(** The arguments [(a, b)] of the [random.randint] that draws the stock of a
    commodity at a station of a given type. *)
Definition stock_range (station_type : StationType) (commodity : CommodityType) : Z * Z :=
  match station_type with
  | MINING_COLONY =>
      match commodity with
      | MINERALS => (50, 200) | FOOD => (5, 20) | TECHNOLOGY => (10, 30)
      | MEDICINE => (10, 25) | LUXURIES => (5, 15) | FUEL => (30, 80)
      end
  | MANUFACTURING_HUB =>
      match commodity with
      | TECHNOLOGY => (40, 120) | MINERALS => (10, 30) | FOOD => (20, 60)
      | MEDICINE => (15, 40) | LUXURIES => (20, 80) | FUEL => (20, 50)
      end
  | RESEARCH_STATION =>
      match commodity with
      | MEDICINE => (40, 100) | TECHNOLOGY => (20, 60) | FOOD => (10, 30)
      | MINERALS => (5, 20) | LUXURIES => (5, 15) | FUEL => (15, 40)
      end
  | TRADING_POST => (20, 80)
  end.

(** [Galaxy._generate_market] *)
Definition _generate_market (station_type : StationType) (draws : MarketDraws) : Market :=
  let base_prices : cdict Z :=
    fun commodity =>
      match commodity with
      | FOOD => 100 | MINERALS => 150 | TECHNOLOGY => 500
      | MEDICINE => 300 | LUXURIES => 800 | FUEL => 80
      end in
  (* station type affects what they produce/need *)
  let supply_demand : cdict Q :=
    match station_type with
    | MINING_COLONY =>
        fun commodity =>
          match commodity with
          | MINERALS => 7 # 10 | FOOD => 15 # 10 | TECHNOLOGY => 13 # 10
          | MEDICINE => 12 # 10 | LUXURIES => 11 # 10 | FUEL => 9 # 10
          end
    | MANUFACTURING_HUB =>
        fun commodity =>
          match commodity with
          | TECHNOLOGY => 8 # 10 | MINERALS => 14 # 10 | FOOD => 11 # 10
          | MEDICINE => 1%Q | LUXURIES => 9 # 10 | FUEL => 11 # 10
          end
    | RESEARCH_STATION =>
        fun commodity =>
          match commodity with
          | MEDICINE => 8 # 10 | TECHNOLOGY => 9 # 10 | FOOD => 13 # 10
          | MINERALS => 12 # 10 | LUXURIES => 14 # 10 | FUEL => 12 # 10
          end
    | TRADING_POST => supply_draw draws
    end in
  let stock_levels : cdict Z := stock_draw draws in
  (* current prices *)
  let current_prices : cdict Q :=
    fun commodity =>
      let base := base_prices commodity in
      let multiplier := supply_demand commodity in
      let variance := variance_draw draws commodity in
      (inject_Z base * multiplier * variance)%Q in
  mkMarket current_prices supply_demand stock_levels.

(** The values drawn while [spawn_ai_traders] creates one trader. *)
Record TraderDraws : Type := mkTraderDraws {
  qx_draw : Z;               (* random.randint(0, 7) *)
  qy_draw : Z;
  sx_draw : Z;
  sy_draw : Z;
  risk_tolerance_draw : Q;   (* random.uniform(a, b): see [trait_ranges] *)
  patience_draw : Q;
  credits_draw : Q;
  cargo_size_draw : Z;       (* random.randint(a, b): see [trait_ranges] *)
  specialties_draw : list CommodityType;
                             (* random.sample(list(CommodityType), 1 or 2) *)
  cargo_draw : cdict Z       (* random.randint(0, 3) per commodity *)
}.

(** The arguments of the draws of the personality-based traits: risk
    tolerance, patience, credits (each [random.uniform]) and cargo size
    ([random.randint]). *)
Record TraitRanges : Type := mkTraitRanges {
  risk_range : Q * Q;
  patience_range : Q * Q;
  credits_range : Q * Q;
  cargo_size_range : Z * Z
}.

Definition trait_ranges (personality : AIPersonality) : TraitRanges :=
  match personality with
  | CAUTIOUS =>
      mkTraitRanges (2 # 10, 4 # 10) (6 # 10, 9 # 10) (3000%Q, 6000%Q) (60, 80)
  | AGGRESSIVE =>
      mkTraitRanges (7 # 10, 9 # 10) (1 # 10, 4 # 10) (1500%Q, 4000%Q) (80, 120)
  | OPPORTUNIST =>
      mkTraitRanges (5 # 10, 7 # 10) (3 # 10, 6 # 10) (2500%Q, 7000%Q) (70, 100)
  | SPECIALIST =>
      mkTraitRanges (4 # 10, 6 # 10) (5 # 10, 8 # 10) (2000%Q, 5000%Q) (50, 90)
  end.

(** One pass of the loop of [Galaxy.spawn_ai_traders], for the personality
    [random.choice] returned: the ship and the [AITrader] built around it. *)
Definition spawn_ai_trader (personality : AIPersonality) (draws : TraderDraws) : AITrader :=
  let qx := qx_draw draws in
  let qy := qy_draw draws in
  let sx := sx_draw draws in
  let sy := sy_draw draws in
  let risk_tolerance := risk_tolerance_draw draws in
  let patience := patience_draw draws in
  let credits := credits_draw draws in
  let cargo_size := cargo_size_draw draws in
  (* preferred commodities for specialists *)
  let preferred_commodities :=
    if AIPersonality_eqb personality SPECIALIST then specialties_draw draws else [] in
  let ship :=
    mkShip (mkPosition qx qy sx sy) (cargo_draw draws) cargo_size credits
      None 0 personality preferred_commodities risk_tolerance patience in
  mkAITrader ship [] (fun _ => None) [] 0.

(* ------------------------------------------------------------------ *)
(** ** One tick of a trader: [AITrader.update] *)





(* ------------------------------------------------------------------ *)
(** ** The player's commands: [Game]

    Printing is left out: a command is what it does to the game.  The text
    a command reads with [input()] and turns into a number with [int()] is
    an argument, as the number read. *)

Module Player.

(** The fields of the player's [Ship] that the commands read or write.  The
    player's ship has no personality and none of the traits of a trader. *)
Record Ship : Type := mkShip {
  position : Position;
  energy : Z;
  cargo_hold : cdict Z;
  max_cargo : Z;
  credits : Q
}.

Definition total_cargo (self : Ship) : Z :=
  fold_left Z.add (map (cargo_hold self) all_commodities) 0.

Definition cargo_space_remaining (self : Ship) : Z :=
  max_cargo self - total_cargo self.

End Player.

Record Game : Type := mkGame {
  galaxy : Galaxy;
  player_ship : Player.Ship;
  game_time : Q;
  turn_count : Z;
  running : bool
}.

Definition set_player_ship (g : Game) (s : Player.Ship) : Game :=
  mkGame (galaxy g) s (game_time g) (turn_count g) (running g).

(** [Game._get_current_station]: the first station at the player's position. *)
Definition player_current_station (self : Game) : option Station :=
  find (fun station =>
          (quadrant_x (station_position station)
             =? quadrant_x (Player.position (player_ship self))) &&
          (quadrant_y (station_position station)
             =? quadrant_y (Player.position (player_ship self))) &&
          (sector_x (station_position station)
             =? sector_x (Player.position (player_ship self))) &&
          (sector_y (station_position station)
             =? sector_y (Player.position (player_ship self))))
       (stations (galaxy self)).

(** [Game.move_to_position] *)
Definition move_to_position (self : Game) (qx qy sx sy : Z) : Game :=
  let ship := player_ship self in
  let old_pos := Player.position ship in
  let energy_cost := Z.abs (qx - quadrant_x old_pos) + Z.abs (qy - quadrant_y old_pos) in
  let energy_cost :=
    energy_cost * 100 + Z.abs (sx - sector_x old_pos) + Z.abs (sy - sector_y old_pos) in
  if energy_cost <=? Player.energy ship then
    set_player_ship self
      (Player.mkShip (mkPosition qx qy sx sy) (Player.energy ship - energy_cost)
         (Player.cargo_hold ship) (Player.max_cargo ship) (Player.credits ship))
  else self.

(** [Game.move_to_sector] *)
Definition move_to_sector (self : Game) (sx sy : Z) : Game :=
  let ship := player_ship self in
  let old_pos := Player.position ship in
  let energy_cost := Z.abs (sx - sector_x old_pos) + Z.abs (sy - sector_y old_pos) in
  if energy_cost <=? Player.energy ship then
    set_player_ship self
      (Player.mkShip (mkPosition (quadrant_x old_pos) (quadrant_y old_pos) sx sy)
         (Player.energy ship - energy_cost)
         (Player.cargo_hold ship) (Player.max_cargo ship) (Player.credits ship))
  else self.

(** [min(items, key=lambda x: x[1])] of a list that is not empty: the first
    item of least key. *)
Definition min_by_dist (first : Station * Z) (rest : list (Station * Z)) : Station * Z :=
  fold_left (fun best x => if snd x <? snd best then x else best) rest first.

(** The stations [dock_at_station] considers: those of the player's
    quadrant at most one sector away, each with its distance. *)
Definition nearby_stations (self : Game) : list (Station * Z) :=
  flat_map
    (fun station =>
       if (quadrant_x (station_position station)
             =? quadrant_x (Player.position (player_ship self))) &&
          (quadrant_y (station_position station)
             =? quadrant_y (Player.position (player_ship self)))
       then
         let dist :=
           Z.abs (sector_x (station_position station)
                  - sector_x (Player.position (player_ship self)))
           + Z.abs (sector_y (station_position station)
                    - sector_y (Player.position (player_ship self))) in
         if dist <=? 1 then [(station, dist)] else []
       else [])
    (stations (galaxy self)).

(** [Game.dock_at_station] *)
Definition dock_at_station (self : Game) : Game :=
  match player_current_station self with
  | Some station => self
  | None =>
      match nearby_stations self with
      | [] => self
      | first :: rest =>
          (* move to closest station *)
          let '(station, dist) := min_by_dist first rest in
          let ship := player_ship self in
          set_player_ship self
            (Player.mkShip
               (mkPosition (quadrant_x (Player.position ship))
                  (quadrant_y (Player.position ship))
                  (sector_x (station_position station))
                  (sector_y (station_position station)))
               (Player.energy ship) (Player.cargo_hold ship)
               (Player.max_cargo ship) (Player.credits ship))
      end
  end.

(** [Game.buy_goods]: the ship and the station after the call, and the
    exception that ended it, if any.  [selected] and [quantity] are the
    numbers read; the second is read only when something can be bought. *)
Definition buy_goods (ship : Player.Ship) (station : Station)
    (selected quantity : Z) : Player.Ship * Station * option Py.exn :=
  let commodities_list := all_commodities in
  let choice := selected - 1 in
  if (0 <=? choice) && (choice <? Py.len commodities_list) then
    let commodity := nth (Z.to_nat choice) commodities_list FOOD in
    match Py.div (Player.credits ship) (commodities (market station) commodity) with
    | Py.Raise e => (ship, station, Some e)
    | Py.Ok quotient =>
        let max_affordable := Py.int quotient in
        let max_space := Player.cargo_space_remaining ship in
        let max_stock := stock_levels (market station) commodity in
        let max_buy := Z.min max_affordable (Z.min max_space max_stock) in
        if max_buy <=? 0 then (ship, station, None)
        else if (0 <? quantity) && (quantity <=? max_buy) then
          let total_cost := (inject_Z quantity * commodities (market station) commodity)%Q in
          (Player.mkShip (Player.position ship) (Player.energy ship)
             (cset (Player.cargo_hold ship) commodity
                (Player.cargo_hold ship commodity + quantity))
             (Player.max_cargo ship) (Player.credits ship - total_cost)%Q,
           set_market station (adjust_price (market station) commodity (- quantity)),
           None)
        else (ship, station, None)
    end
  else (ship, station, None).

(** The list [available] of [sell_goods]: the commodities held, each with
    its quantity, in the order of the hold. *)
Definition available (ship : Player.Ship) : list (CommodityType * Z) :=
  filter (fun item => 0 <? snd item)
    (map (fun c => (c, Player.cargo_hold ship c)) all_commodities).

(** [Game.sell_goods] *)
Definition sell_goods (ship : Player.Ship) (station : Station)
    (selected quantity : Z) : Player.Ship * Station :=
  match available ship with
  | [] => (ship, station)
  | _ =>
      let choice := selected - 1 in
      if (0 <=? choice) && (choice <? Py.len (available ship)) then
        let '(commodity, max_quantity) :=
          nth (Z.to_nat choice) (available ship) (FOOD, 0) in
        if (0 <? quantity) && (quantity <=? max_quantity) then
          let total_value := (inject_Z quantity * commodities (market station) commodity)%Q in
          (Player.mkShip (Player.position ship) (Player.energy ship)
             (cset (Player.cargo_hold ship) commodity
                (Player.cargo_hold ship commodity - quantity))
             (Player.max_cargo ship) (Player.credits ship + total_value)%Q,
           set_market station (adjust_price (market station) commodity quantity))
        else (ship, station)
      else (ship, station)
  end.

From Stdlib Require Import Ascii.

(** The method [Game.process_command] hands a command to. *)
Inductive Handler : Type :=
| handle_move_command | show_help | scan_area | show_market | trade_menu
| dock_command | quit | save_game | status | unknown_command.

(** [command.startswith('m')] *)
Definition starts_with_m (command : string) : bool :=
  match command with
  | String c _ => Ascii.eqb c "m"%char
  | EmptyString => false
  end.

(** [Game.process_command], as the choice of the method that runs. *)
Definition process_command (command : string) : Handler :=
  if starts_with_m command || String.eqb command "move" then handle_move_command
  else if String.eqb command "help" || String.eqb command "h" then show_help
  else if String.eqb command "scan" || String.eqb command "s" then scan_area
  else if String.eqb command "market" || String.eqb command "mk" then show_market
  else if String.eqb command "trade" || String.eqb command "t" then trade_menu
  else if String.eqb command "dock" || String.eqb command "d" then dock_command
  else if String.eqb command "quit" || String.eqb command "q" then quit
  else if String.eqb command "save" then save_game
  else if String.eqb command "status" then status
  else unknown_command.
(* ------------------------------------------------------------------ *)
(** ** The policy tables, as stated *)



(** The refusal rule of the buy policy, as the disjunction it is stated as. *)
Definition refuses_to_buy (p : AIPersonality) (preferred : bool) (price_ratio : Q) : bool :=
  (AIPersonality_eqb p CAUTIOUS && Py.gtb price_ratio (105 # 100))
  || (AIPersonality_eqb p AGGRESSIVE && Py.gtb price_ratio (125 # 100))
  || Py.gtb price_ratio (115 # 100)
  || (AIPersonality_eqb p SPECIALIST && negb preferred).

(** The quantity cap of the buy policy, as a table: Cautious 5, Aggressive
    25, Opportunist 20 below a price ratio of 0.9 and 10 otherwise,
    Specialist 30 on a preferred commodity and 0 otherwise. *)
Definition personality_cap (p : AIPersonality) (preferred : bool) (price_ratio : Q) : Z :=
  match p with
  | CAUTIOUS => 5
  | AGGRESSIVE => 25
  | OPPORTUNIST => if Py.ltb price_ratio (9 # 10) then 20 else 10
  | SPECIALIST => if preferred then 30 else 0
  end.

(* ------------------------------------------------------------------ *)
(** ** The trend, as stated *)

Definition average (xs : list Q) : Q := (Py.sum xs / inject_Z (Py.len xs))%Q.

(** The trend of the trend refresh as it is stated: the recent average is
    over the last [min(3, len)] prices, the older average over the
    remaining ones, or the first price when fewer than 4 prices exist; the
    trend is 0 when the older average is not positive. *)
Definition stated_trend (prices : list Q) : Q :=
  let n := Nat.min 3 (List.length prices) in
  let recent_avg := average (Py.last_n n prices) in
  let older_avg :=
    if Py.len prices <? 4 then hd 0%Q prices
    else average (Py.but_last_n n prices) in
  if Py.gtb older_avg 0 then ((recent_avg - older_avg) / older_avg)%Q else 0%Q.

(** The trend the refresh stores: the recent average is over the last 3
    prices when there are at least 3, and is the last price otherwise. *)
Definition stored_trend (prices : list Q) : Q :=
  let recent_avg :=
    if 3 <=? Py.len prices then average (Py.last_n 3 prices)
    else last prices 0%Q in
  let older_avg :=
    if Py.len prices <? 4 then hd 0%Q prices
    else average (Py.but_last_n 3 prices) in
  if Py.gtb older_avg 0 then ((recent_avg - older_avg) / older_avg)%Q else 0%Q.

(* ------------------------------------------------------------------ *)
(** ** Planning and movement, as stated *)

(** Whether [_plan_movement] re-evaluates the destination: there is none,
    or the roll is below the change chance. *)
Definition reevaluates (self : AITrader) (roll : Q) : bool :=
  match destination (ship self) with None => true | Some _ => false end
  || Py.ltb roll ((5 # 100) + risk_tolerance (ship self) * (15 # 100))%Q.

(** A station is a candidate when it is not at the ship's position. *)
Definition candidate (self : AITrader) (station : Station) : bool :=
  negb (Position_eqb (station_position station) (position (ship self))).

(** What the station loop of [_plan_movement] has established after the
    stations [visited], for a given scoring of stations: nothing is selected
    and no candidate scored above 0, or the selected station is the first
    candidate of maximal score, and that score is above 0. *)
Definition plan_inv (self : AITrader) (score : Station -> Q)
    (visited : list Station) (acc : option Station * Q) : Prop :=
  (fst acc = None /\ snd acc = 0%Q /\
   forall s, In s visited -> candidate self s = true -> (score s <= 0)%Q)
  \/
  (exists before s after,
      visited = before ++ s :: after /\
      fst acc = Some s /\ snd acc = score s /\
      candidate self s = true /\ (0 < score s)%Q /\
      (forall s', In s' before -> candidate self s' = true -> (score s' < score s)%Q) /\
      (forall s', In s' after -> candidate self s' = true -> (score s' <= score s)%Q)).

(** The four coordinates of a position, in the priority order of the
    movement planner. *)
Inductive Axis : Type := QuadrantX | QuadrantY | SectorX | SectorY.

Definition coord (a : Axis) (p : Position) : Z :=
  match a with
  | QuadrantX => quadrant_x p
  | QuadrantY => quadrant_y p
  | SectorX => sector_x p
  | SectorY => sector_y p
  end.

(** The first axis, in priority order, on which two positions differ. *)
Definition first_differing_axis (current target : Position) : option Axis :=
  find (fun a => negb (coord a current =? coord a target))
    [QuadrantX; QuadrantY; SectorX; SectorY].

(** A station an Opportunist detours to: within distance 2 of the ship, not
    at its position, with an opportunity score above 100. *)
Definition worth_a_detour (galaxy : Galaxy) (self : AITrader) (station : Station) : bool :=
  (distance_to (station_position station) (position (ship self)) <=? 2)
  && negb (Position_eqb (station_position station) (position (ship self)))
  && Py.gtb (_evaluate_station_opportunity galaxy self station 0) 100.

(* ------------------------------------------------------------------ *)
(** ** The books of a ship *)

(** The invariant of a ship's books: credits and every cargo quantity are
    non-negative, and the hold is within capacity. *)
Definition ship_ok (s : Ship) : Prop :=
  (0 <= credits s)%Q /\
  (forall c, 0 <= cargo_hold s c) /\
  total_cargo s <= max_cargo s.

(** The risk tolerance is a fraction. *)
Definition risk_ok (s : Ship) : Prop :=
  (0 <= risk_tolerance s)%Q /\ (risk_tolerance s <= 1)%Q.

(* ------------------------------------------------------------------ *)
(** ** Scenarios *)

(** A market in which every commodity has the given price and stock. *)
Definition flat_market (price : Q) (stock : Z) : Market :=
  mkMarket (fun _ => price) (fun _ => 1%Q) (fun _ => stock).


Definition origin : Position := mkPosition 0 0 0 0.

(** A ship with an empty hold of capacity 100, no destination, at the origin. *)
Definition ship_of (p : AIPersonality) (preferred : list CommodityType)
    (credits risk_tolerance patience : Q) : Ship :=
  mkShip origin (fun _ => 0) 100 credits None 0 p preferred risk_tolerance patience.

(** A trader that has seen no market yet. *)
Definition trader_of (s : Ship) : AITrader :=
  mkAITrader s [] (fun _ => None) [] 0.

Definition station_of (name : string) (pos : Position) (m : Market) : Station :=
  mkStation name TRADING_POST pos m.

(** The Cautious agent of the buy scenario: credits 1000, risk tolerance
    0.3, docked where Food sells at 95. *)
Definition cautious_trader : AITrader :=
  trader_of (ship_of CAUTIOUS [] 1000 (3 # 10) (7 # 10)).

Definition food95_station : Station :=
  station_of "Alpha Station 1" origin (flat_market 95 40).

(** Two traders that agree on what the policy reads and differ elsewhere:
    position, destination, last trade time, memory, profit history. *)
Definition trader_here : AITrader :=
  mkAITrader
    (mkShip origin (fun _ => 2) 60 2500 None 0 OPPORTUNIST [] (6 # 10) (4 # 10))
    [] (fun _ => Some (1 # 20)) [] 0.

Definition trader_there : AITrader :=
  mkAITrader
    (mkShip (mkPosition 3 4 5 6) (fun _ => 2) 60 2500 (Some origin) 7
       OPPORTUNIST [] (6 # 10) (4 # 10))
    [((3, 4), fun _ => Some (90%Q, 1%Q))] (fun _ => Some (1 # 20)) [12%Q] 5.

Definition station_there : Station :=
  mkStation "Beta Outpost 2" MINING_COLONY (mkPosition 3 4 5 6)
    (mkMarket (fun _ => 95%Q) (fun _ => 7 # 10) (fun _ => 40)).

(** A trader whose memory holds two quadrants, with every commodity seen at
    100 in the first and at 110 in the second. *)
Definition two_price_trader : AITrader :=
  mkAITrader (ship_of CAUTIOUS [] 1000 (3 # 10) (7 # 10))
    [((0, 0), fun _ => Some (100%Q, 1%Q)); ((0, 1), fun _ => Some (110%Q, 2%Q))]
    (fun _ => None) [] 0.

(** A trader at the origin holding 3 units of Food, and a galaxy of two
    stations: one where it stands, one a sector away where Food sells at
    200. *)
Definition food_holder (p : AIPersonality) (dest : option Position) : AITrader :=
  mkAITrader
    (mkShip origin (cset (fun _ => 0) FOOD 3) 100 1000 dest 0 p [] (5 # 10) (5 # 10))
    [] (fun _ => None) [] 0.

Definition near_station : Station :=
  station_of "Gamma Trading Post 2" (mkPosition 0 0 0 1)
    (mkMarket (cset (fun c => inject_Z (_get_base_price c)) FOOD 200%Q)
       (fun _ => 1%Q) (fun _ => 40)).

Definition home_station : Station :=
  station_of "Alpha Station 1" origin
    (mkMarket (fun c => inject_Z (_get_base_price c)) (fun _ => 1%Q) (fun _ => 40)).

Definition small_galaxy : Galaxy := mkGalaxy [home_station; near_station].

(** A trade where both loops act: an Opportunist holding 3 units of Food,
    docked where Food sells at 200 and the rest at base price, long after
    its last trade. *)
Definition trading_trader : AITrader := food_holder OPPORTUNIST None.

(** The Cautious agent of the buy scenario again, with room for 2 units only. *)
Definition cramped_trader : AITrader :=
  mkAITrader
    (mkShip origin (fun _ => 0) 2 1000 None 0 CAUTIOUS [] (3 # 10) (7 # 10))
    [] (fun _ => None) [] 0.

(* ------------------------------------------------------------------ *)
(** ** Well-formed markets *)

(** The price of a commodity lies in [[0.5 * base, 2.0 * base]]. *)
Definition price_in_band (m : Market) (c : CommodityType) : Prop :=
  (inject_Z (_get_base_price c) * (1 # 2) <= commodities m c)%Q /\
  (commodities m c <= inject_Z (_get_base_price c) * 2)%Q.

(** Every price lies in its band and no stock is negative. *)
Definition market_ok (m : Market) : Prop :=
  forall c, price_in_band m c /\ 0 <= stock_levels m c.

(* ------------------------------------------------------------------ *)
(** ** One sale, one purchase *)

(** The trader and the station after the trader sold [amount] units of
    [commodity]: the body of the selling loop once it has decided. *)
Definition sold (t : AITrader) (st : Station) (commodity : CommodityType)
    (amount : Z) : AITrader * Station :=
  let ship1 :=
    set_cargo_hold (ship t)
      (cset (cargo_hold (ship t)) commodity (cargo_hold (ship t) commodity - amount)) in
  let ship2 :=
    set_credits ship1
      (credits ship1 + inject_Z amount * commodities (market st) commodity)%Q in
  (set_ship t ship2, set_market st (adjust_price (market st) commodity amount)).

(** The trader and the station after the trader bought [amount] units of
    [commodity]: the body of the buying loop once it has decided. *)
Definition bought (t : AITrader) (st : Station) (commodity : CommodityType)
    (amount : Z) : AITrader * Station :=
  let ship1 :=
    set_cargo_hold (ship t)
      (cset (cargo_hold (ship t)) commodity (cargo_hold (ship t) commodity + amount)) in
  let ship2 :=
    set_credits ship1
      (credits ship1 - inject_Z amount * commodities (market st) commodity)%Q in
  (set_ship t ship2, set_market st (adjust_price (market st) commodity (- amount))).

(** The two loops of [_trade_at_station], run one after the other. *)
Definition trade_loops (t : AITrader) (st : Station) (game_time : Q)
    : AITrader * Station * Q * option Py.exn :=
  let items := map (fun c => (c, cargo_hold (ship t) c)) all_commodities in
  let '(t1, st1, total_profit) :=
    fold_left (sell_step game_time) items (t, st, 0%Q) in
  let '(t2, st2, e) := buy_loop game_time all_commodities t1 st1 in
  (t2, st2, total_profit, e).

(** What a trade leaves alone in the trader: where the ship is and heads,
    its capacity, its character, and what the trader remembers. *)
Definition same_outside_books (t t' : AITrader) : Prop :=
  position (ship t') = position (ship t) /\
  destination (ship t') = destination (ship t) /\
  max_cargo (ship t') = max_cargo (ship t) /\
  personality (ship t') = personality (ship t) /\
  preferred_commodities (ship t') = preferred_commodities (ship t) /\
  risk_tolerance (ship t') = risk_tolerance (ship t) /\
  patience (ship t') = patience (ship t) /\
  trade_memory t' = trade_memory t /\
  market_analysis t' = market_analysis t /\
  last_analysis_time t' = last_analysis_time t.

(** What a trade leaves alone in the station: its identity, its place and
    its supply and demand multipliers. *)
Definition same_station (st st' : Station) : Prop :=
  station_name st' = station_name st /\
  station_type st' = station_type st /\
  station_position st' = station_position st /\
  supply_demand (market st') = supply_demand (market st).

(* ------------------------------------------------------------------ *)
(** ** The grid and the way to a destination *)

(** All four coordinates lie in [[0, 8)]. *)
Definition in_grid (p : Position) : Prop :=
  0 <= quadrant_x p < 8 /\ 0 <= quadrant_y p < 8 /\
  0 <= sector_x p < 8 /\ 0 <= sector_y p < 8.

(** The number of single steps between two positions: the Manhattan
    distance over the four coordinates. *)
Definition steps_between (p q : Position) : Z :=
  Z.abs (quadrant_x p - quadrant_x q) + Z.abs (quadrant_y p - quadrant_y q)
  + Z.abs (sector_x p - sector_x q) + Z.abs (sector_y p - sector_y q).

(** A roll on which [_move_ship] takes the stored destination as its
    target: the agent is no Opportunist, or the roll is not below 0.1. *)
Definition no_detour (self : AITrader) (roll : Q) : bool :=
  negb (AIPersonality_eqb (personality (ship self)) OPPORTUNIST && Py.ltb roll (1 # 10)).

(* ------------------------------------------------------------------ *)
(** ** What the random draws can be *)

(** [x] is a value [random.randint(a, b)] can return. *)
Definition randint_in (range : Z * Z) (x : Z) : Prop :=
  fst range <= x <= snd range.

(** [x] is a value [random.uniform(a, b)] can return. *)
Definition uniform_in (range : Q * Q) (x : Q) : Prop :=
  (fst range <= x)%Q /\ (x <= snd range)%Q.

(** The draws of [_generate_market] are draws of its calls. *)
Definition market_draws_ok (station_type : StationType) (draws : MarketDraws) : Prop :=
  forall c,
    uniform_in (9 # 10, 11 # 10) (supply_draw draws c) /\
    randint_in (stock_range station_type c) (stock_draw draws c) /\
    uniform_in (9 # 10, 11 # 10) (variance_draw draws c).

(** The draws of [spawn_ai_traders] are draws of its calls. *)
Definition trader_draws_ok (personality : AIPersonality) (draws : TraderDraws) : Prop :=
  randint_in (0, 7) (qx_draw draws) /\ randint_in (0, 7) (qy_draw draws) /\
  randint_in (0, 7) (sx_draw draws) /\ randint_in (0, 7) (sy_draw draws) /\
  uniform_in (risk_range (trait_ranges personality)) (risk_tolerance_draw draws) /\
  uniform_in (patience_range (trait_ranges personality)) (patience_draw draws) /\
  uniform_in (credits_range (trait_ranges personality)) (credits_draw draws) /\
  randint_in (cargo_size_range (trait_ranges personality)) (cargo_size_draw draws) /\
  (forall c, randint_in (0, 3) (cargo_draw draws c)).

(** A market whose draws are all the middle of their range. *)
Definition middle_market_draws : MarketDraws :=
  mkMarketDraws (fun _ => 1%Q) (fun _ => 50) (fun _ => 1%Q).

Definition middle_trader_draws : TraderDraws :=
  mkTraderDraws 3 4 5 6 (5 # 10) (5 # 10) 3000 75 [MINERALS] (fun _ => 2).

(* ------------------------------------------------------------------ *)
(** ** The trade memory as a dictionary *)

(** [memory.get(key)]: the entry of a quadrant, if it has one. *)
Fixpoint memory_get (key : Z * Z) (memory : list ((Z * Z) * pos_data)) : option pos_data :=
  match memory with
  | [] => None
  | (k, v) :: rest =>
      if (fst k =? fst key) && (snd k =? snd key) then Some v
      else memory_get key rest
  end.

(** The quadrant of a station: the key of its entry in the trade memory. *)
Definition quadrant_of (station : Station) : Z * Z :=
  (quadrant_x (station_position station), quadrant_y (station_position station)).

(* ------------------------------------------------------------------ *)
(** ** The invariants of the world *)



(* ------------------------------------------------------------------ *)
(** ** The player *)

(** The books of the player's ship are in order. *)
Definition player_ok (s : Player.Ship) : Prop :=
  (0 <= Player.credits s)%Q /\
  (forall c, 0 <= Player.cargo_hold s c) /\
  Player.total_cargo s <= Player.max_cargo s.

(** A game with one station, where the player stands one sector from it. *)
Definition a_player : Player.Ship :=
  Player.mkShip origin 1000 (fun _ => 0) 100 5000.

Definition a_game : Game :=
  mkGame (mkGalaxy [near_station]) a_player 0 0 true.

(** The player buys 10 units of Minerals (line 2 of the market), then sells
    10 units of the first line of the cargo list. *)
Definition after_purchase : Player.Ship * Station * option Py.exn :=
  buy_goods a_player near_station 2 10.

Definition after_sale : Player.Ship * Station :=
  sell_goods (fst (fst after_purchase)) (snd (fst after_purchase)) 1 10.
(* ================================================================== *)
(** * Properties *)

(** ** Comparisons and clamping *)

Lemma ltb_spec (x y : Q) : Py.ltb x y = true <-> (x < y)%Q.
Proof.
  unfold Py.ltb. rewrite negb_true_iff, <- not_true_iff_false, Qle_bool_iff.
  split; intro H; [apply Qnot_le_lt | apply Qlt_not_le]; exact H.
Qed.

Lemma ltb_false (x y : Q) : Py.ltb x y = false <-> (y <= x)%Q.
Proof.
  unfold Py.ltb. rewrite negb_false_iff. apply Qle_bool_iff.
Qed.

Lemma gtb_spec (x y : Q) : Py.gtb x y = true <-> (y < x)%Q.
Proof. apply ltb_spec. Qed.

Lemma gtb_false (x y : Q) : Py.gtb x y = false <-> (x <= y)%Q.
Proof. apply ltb_false. Qed.

Lemma geb_spec (x y : Q) : Py.geb x y = true <-> (y <= x)%Q.
Proof. apply Qle_bool_iff. Qed.

(** [max(lo, min(hi, x))] lies in [[lo, hi]] as soon as [lo <= hi]. *)
Lemma clamp_bounds (lo hi x : Q) :
  (lo <= hi)%Q ->
  (lo <= Py.max lo (Py.min hi x) <= hi)%Q.
Proof.
  intro Hlh. unfold Py.max, Py.min.
  destruct (Py.ltb x hi) eqn:Hx;
    [ apply ltb_spec in Hx | apply ltb_false in Hx ].
  - destruct (Py.gtb x lo) eqn:Hl;
      [ apply gtb_spec in Hl | apply gtb_false in Hl ]; lra.
  - destruct (Py.gtb hi lo) eqn:Hl;
      [ apply gtb_spec in Hl | apply gtb_false in Hl ]; lra.
Qed.


Lemma base_price_pos (c : CommodityType) : 0 < _get_base_price c.
Proof. destruct c; reflexivity. Qed.

Lemma base_price_posQ (c : CommodityType) : (0 < inject_Z (_get_base_price c))%Q.
Proof.
  change 0%Q with (inject_Z 0). rewrite <- Zlt_Qlt. apply base_price_pos.
Qed.

Lemma CommodityType_eqb_refl (c : CommodityType) : CommodityType_eqb c c = true.
Proof. destruct c; reflexivity. Qed.

Lemma CommodityType_eqb_eq (a b : CommodityType) :
  CommodityType_eqb a b = true <-> a = b.
Proof. destruct a, b; simpl; split; (congruence || discriminate). Qed.

Lemma cset_same {A : Type} (d : cdict A) (c : CommodityType) (v : A) :
  cset d c v c = v.
Proof. unfold cset. now rewrite CommodityType_eqb_refl. Qed.

Lemma cset_other {A : Type} (d : cdict A) (c k : CommodityType) (v : A) :
  k <> c -> cset d c v k = d k.
Proof.
  intro H. unfold cset. destruct (CommodityType_eqb k c) eqn:E; [|reflexivity].
  apply CommodityType_eqb_eq in E. contradiction.
Qed.

(** ** Position.distance_to *)

(** C8: [distance_to] is symmetric, non-negative, zero between equal
    positions, and is the two-tier metric: the Manhattan distance between
    quadrants times 8 when the quadrants differ, else the Manhattan distance
    between sectors. *)
Theorem distance_to_metric :
  forall p q : Position,
    distance_to p q = distance_to q p /\
    0 <= distance_to p q /\
    distance_to p p = 0 /\
    distance_to p q = two_tier_metric p q.
Proof.
  intros [px py psx psy] [qx qy qsx qsy].
  unfold distance_to, two_tier_metric; simpl.
  repeat split.
  - replace (Z.abs (qx - px)) with (Z.abs (px - qx)) by lia.
    replace (Z.abs (qy - py)) with (Z.abs (py - qy)) by lia.
    replace (Z.abs (qsx - psx)) with (Z.abs (psx - qsx)) by lia.
    replace (Z.abs (qsy - psy)) with (Z.abs (psy - qsy)) by lia.
    reflexivity.
  - destruct (Z.abs (px - qx) + Z.abs (py - qy) =? 0); lia.
  - rewrite !Z.sub_diag. reflexivity.
  - destruct (Z.eqb_spec (Z.abs (px - qx) + Z.abs (py - qy)) 0) as [E | E];
      destruct (Z.eqb_spec px qx) as [Ex | Ex];
      destruct (Z.eqb_spec py qy) as [Ey | Ey]; simpl; lia.
Qed.

(** ** Market.adjust_price *)

Lemma adjust_price_stock (m : Market) (c : CommodityType) (q : Z) :
  stock_levels (adjust_price m c q) c = Z.max 0 (stock_levels m c + q).
Proof. unfold adjust_price; simpl. apply cset_same. Qed.

Lemma adjust_price_price_band (m : Market) (c : CommodityType) (q : Z) :
  (inject_Z (_get_base_price c) * (1 # 2) <= commodities (adjust_price m c q) c
   <= inject_Z (_get_base_price c) * 2)%Q.
Proof.
  unfold adjust_price; simpl. rewrite cset_same.
  apply clamp_bounds. pose proof (base_price_posQ c). lra.
Qed.

(** C1: after every call of [adjust_price], from a state with non-negative
    stock and for any integer change, the stock of the commodity is
    non-negative and its price lies in [[0.5 * base, 2.0 * base]]. *)
Theorem adjust_price_invariant :
  forall (m : Market) (c : CommodityType) (quantity_change : Z),
    0 <= stock_levels m c ->
    0 <= stock_levels (adjust_price m c quantity_change) c /\
    (inject_Z (_get_base_price c) * (1 # 2)
       <= commodities (adjust_price m c quantity_change) c)%Q /\
    (commodities (adjust_price m c quantity_change) c
       <= inject_Z (_get_base_price c) * 2)%Q.
Proof.
  intros m c q _.
  rewrite adjust_price_stock.
  pose proof (adjust_price_price_band m c q) as [Hlo Hhi].
  repeat split; [lia | exact Hlo | exact Hhi].
Qed.

Lemma adjust_price_invariant_witness :
  0 <= stock_levels (flat_market 95 40) FOOD /\
  0 <= stock_levels (adjust_price (flat_market 95 40) FOOD (-50)) FOOD /\
  (inject_Z (_get_base_price FOOD) * (1 # 2)
     <= commodities (adjust_price (flat_market 95 40) FOOD (-50)) FOOD)%Q /\
  (commodities (adjust_price (flat_market 95 40) FOOD (-50)) FOOD
     <= inject_Z (_get_base_price FOOD) * 2)%Q.
Proof.
  split; [simpl; lia | apply (adjust_price_invariant (flat_market 95 40) FOOD (-50))].
  simpl; lia.
Defined.




(** ** The sell and buy policy *)

Lemma personality_cap_nonneg (p : AIPersonality) (preferred : bool) (r : Q) :
  0 <= personality_cap p preferred r.
Proof.
  destruct p, preferred; simpl; try lia; destruct (Py.ltb r (9 # 10)); lia.
Qed.

(** [int] and [floor] agree on non-negative numbers; below zero neither is
    positive. *)
Lemma int_floor_nonneg (x : Q) : (0 <= x)%Q -> Py.int x = Qfloor x.
Proof.
  destruct x as [n d]. unfold Qle, Py.int, Qfloor; simpl. intro H.
  apply Z.quot_div_nonneg; lia.
Qed.

Lemma int_neg (x : Q) : (x < 0)%Q -> Py.int x <= 0.
Proof.
  destruct x as [n d]. unfold Qlt, Py.int; simpl. intro H.
  assert (Hn : n <= 0) by lia.
  pose proof (Z.quot_opp_l (- n) (Z.pos d) ltac:(lia)) as E.
  rewrite Z.opp_involutive in E. rewrite E.
  pose proof (Z.quot_pos (- n) (Z.pos d) ltac:(lia) ltac:(lia)). lia.
Qed.

Lemma floor_neg (x : Q) : (x < 0)%Q -> Qfloor x < 0.
Proof.
  intro H. pose proof (Qfloor_le x) as Hf.
  assert (Hlt : (inject_Z (Qfloor x) < inject_Z 0)%Q)
    by (apply Qle_lt_trans with x; assumption).
  now rewrite <- Zlt_Qlt in Hlt.
Qed.

(** Under the final [max(0, .)], and below a non-negative cap, truncation
    and floor give the same amount. *)
Lemma capped_int_floor (cap rest : Z) (x : Q) :
  0 <= cap ->
  Z.max 0 (Z.min cap (Z.min (Py.int x) rest))
  = Z.max 0 (Z.min cap (Z.min (Qfloor x) rest)).
Proof.
  intro Hc. destruct (Qlt_le_dec x 0) as [Hneg | Hpos].
  - pose proof (int_neg x Hneg). pose proof (floor_neg x Hneg). lia.
  - now rewrite int_floor_nonneg.
Qed.


(** The buy policy as one equation: the refusal rule, then the caps. *)
Lemma should_buy_eq (t : AITrader) (c : CommodityType) (st : Station) (game_time : Q) :
  let p := personality (ship t) in
  let preferred := cmem c (preferred_commodities (ship t)) in
  let buy_price := commodities (market st) c in
  let price_ratio := (buy_price / inject_Z (_get_base_price c))%Q in
  _should_buy_commodity t c st game_time =
    if refuses_to_buy p preferred price_ratio then Py.Ok 0
    else
      quotient <- Py.div (credits (ship t) * risk_tolerance (ship t))%Q buy_price ;;
      Py.Ok (Z.max 0
               (Z.min (personality_cap p preferred price_ratio)
                  (Z.min (Qfloor quotient)
                     (Z.min (cargo_space_remaining (ship t))
                        (stock_levels (market st) c))))).
Proof.
  intros p preferred buy_price price_ratio.
  unfold _should_buy_commodity, refuses_to_buy.
  fold p preferred buy_price price_ratio.
  destruct p eqn:Ep; simpl;
    destruct (Py.gtb price_ratio (105 # 100)) eqn:H105;
    destruct (Py.gtb price_ratio (125 # 100)) eqn:H125;
    destruct (Py.gtb price_ratio (115 # 100)) eqn:H115;
    destruct preferred eqn:Epref; simpl; try reflexivity;
    unfold Py.div; destruct (Py.eqb buy_price 0); simpl; try reflexivity;
    try destruct (Py.ltb price_ratio (9 # 10)); f_equal;
    apply capped_int_floor; lia.
Qed.



(** C9, as stated, fails: the buy decision also reads the capacity of the
    hold.  Two agents that agree on personality, preferred commodities,
    risk tolerance, patience, credits, cargo and stored trends, at the same
    station, decide to buy 3 and 2 units of Food when their capacities are
    100 and 2. *)
Lemma buy_decision_reads_capacity :
  personality (ship cautious_trader) = personality (ship cramped_trader) /\
  preferred_commodities (ship cautious_trader)
    = preferred_commodities (ship cramped_trader) /\
  risk_tolerance (ship cautious_trader) = risk_tolerance (ship cramped_trader) /\
  patience (ship cautious_trader) = patience (ship cramped_trader) /\
  credits (ship cautious_trader) = credits (ship cramped_trader) /\
  (forall k, cargo_hold (ship cautious_trader) k = cargo_hold (ship cramped_trader) k) /\
  (forall k, market_analysis cautious_trader k = market_analysis cramped_trader k) /\
  _should_buy_commodity cautious_trader FOOD food95_station 0 = Py.Ok 3 /\
  _should_buy_commodity cramped_trader FOOD food95_station 0 = Py.Ok 2.
Proof. repeat split. Qed.

(** C9, amended: the two decisions are functions of the personality, the
    preferred commodities, the risk tolerance, the patience, the market's
    prices and stock, the stored trends, the credits, the cargo and the
    cargo capacity: two invocations that agree on these return the same
    decisions, whatever the rest of the two states (positions, destination,
    times, memory, history, station identity) and with no random draw. *)
Theorem decisions_deterministic :
  forall (t1 t2 : AITrader) (st1 st2 : Station) (c : CommodityType) (gt1 gt2 : Q),
    personality (ship t1) = personality (ship t2) ->
    (forall k, cmem k (preferred_commodities (ship t1))
               = cmem k (preferred_commodities (ship t2))) ->
    risk_tolerance (ship t1) = risk_tolerance (ship t2) ->
    patience (ship t1) = patience (ship t2) ->
    (forall k, commodities (market st1) k = commodities (market st2) k) ->
    (forall k, stock_levels (market st1) k = stock_levels (market st2) k) ->
    (forall k, market_analysis t1 k = market_analysis t2 k) ->
    credits (ship t1) = credits (ship t2) ->
    (forall k, cargo_hold (ship t1) k = cargo_hold (ship t2) k) ->
    max_cargo (ship t1) = max_cargo (ship t2) ->
    _should_sell_commodity t1 c st1 gt1 = _should_sell_commodity t2 c st2 gt2 /\
    _should_buy_commodity t1 c st1 gt1 = _should_buy_commodity t2 c st2 gt2.
Proof.
  intros t1 t2 st1 st2 c gt1 gt2 Hp Hpref Hr Hpat Hprice Hstock Han Hcr Hcargo Hmax.
  split.
  - unfold _should_sell_commodity.
    rewrite Hp, Hpat, (Hpref c), (Hprice c), (Han c). reflexivity.
  - unfold _should_buy_commodity, cargo_space_remaining, total_cargo, all_commodities.
    simpl. rewrite Hp, Hr, Hcr, Hmax, (Hpref c), (Hprice c), (Hstock c), !Hcargo.
    reflexivity.
Qed.

Lemma decisions_deterministic_witness :
  _should_sell_commodity trader_here FOOD food95_station 0
    = _should_sell_commodity trader_there FOOD station_there 9 /\
  _should_buy_commodity trader_here FOOD food95_station 0
    = _should_buy_commodity trader_there FOOD station_there 9.
Proof.
  apply (decisions_deterministic trader_here trader_there food95_station station_there
           FOOD 0 9); reflexivity.
Defined.

(** ** Trend analysis *)

Lemma analyze_step_memory (t : AITrader) (k : CommodityType) :
  trade_memory (analyze_step t k) = trade_memory t.
Proof.
  unfold analyze_step. destruct (2 <=? Py.len (remembered_prices t k)); reflexivity.
Qed.

Lemma analyze_step_prices (t : AITrader) (k c : CommodityType) :
  remembered_prices (analyze_step t k) c = remembered_prices t c.
Proof. unfold remembered_prices. now rewrite analyze_step_memory. Qed.

(** The commodity loop of [_analyze_market_trends], over any list of
    commodities: each entry is written from the prices of its own
    commodity, and the memory is not touched. *)
Lemma analyze_fold (cs : list CommodityType) :
  forall (t : AITrader) (c : CommodityType),
    market_analysis (fold_left analyze_step cs t) c =
      if cmem c cs && (2 <=? Py.len (remembered_prices t c))
      then Some (price_trend (remembered_prices t c))
      else market_analysis t c.
Proof.
  induction cs as [| k cs IH]; intros t c.
  - reflexivity.
  - cbn [fold_left]. rewrite IH, analyze_step_prices.
    unfold cmem. cbn [existsb]. fold (cmem c cs).
    destruct (CommodityType_eqb c k) eqn:Ek; cbn [orb].
    + apply CommodityType_eqb_eq in Ek. subst k.
      unfold analyze_step.
      destruct (2 <=? Py.len (remembered_prices t c)) eqn:E2; cbn [andb].
      * cbn. rewrite cset_same. now destruct (cmem c cs).
      * now rewrite andb_false_r.
    + destruct (cmem c cs && (2 <=? Py.len (remembered_prices t c))); [reflexivity |].
      unfold analyze_step.
      destruct (2 <=? Py.len (remembered_prices t k)); [| reflexivity].
      cbn. apply cset_other. intro E. subst k. now rewrite CommodityType_eqb_refl in Ek.
Qed.

Lemma price_trend_stored (prices : list Q) : price_trend prices = stored_trend prices.
Proof.
  unfold price_trend, stored_trend, average.
  replace (3 <? Py.len prices) with (negb (Py.len prices <? 4))
    by (destruct (Z.ltb_spec 3 (Py.len prices)), (Z.ltb_spec (Py.len prices) 4);
        simpl; lia || reflexivity).
  destruct (Py.len prices <? 4); reflexivity.
Qed.

(** C5, as stated, fails on two remembered prices: for [[100, 110]] the
    stored trend is 0.10, computed from the last price alone, while the
    average of the last [min(3, 2)] prices gives 0.05. *)
Lemma trend_of_two_prices_not_as_stated :
  remembered_prices two_price_trader FOOD = [100%Q; 110%Q] /\
  exists x : Q,
    market_analysis (_analyze_market_trends two_price_trader) FOOD = Some x /\
    (x == 1 # 10)%Q /\
    ~ (x == stated_trend (remembered_prices two_price_trader FOOD))%Q.
Proof.
  split; [reflexivity |].
  eexists. split; [vm_compute; reflexivity |].
  split; [vm_compute; reflexivity | intro H; vm_compute in H; discriminate H].
Qed.

(** C5, amended: for every memory, [_analyze_market_trends] stores per
    commodity, when at least 2 prices are remembered for it (taken across
    the quadrant entries in insertion order), the trend
    [(recentAvg - olderAvg) / olderAvg], where [recentAvg] averages the last
    3 prices when there are at least 3 and is the last price otherwise, and
    [olderAvg] averages the prices before the last 3, or is the first price
    when fewer than 4 exist; the trend is 0 when [olderAvg] is not positive.
    With fewer than 2 prices the stored trend is left as it was.  With the
    prices [[100, 110]] the stored trend is 0.10. *)
Theorem analyze_market_trends_stores :
  (forall (t : AITrader) (c : CommodityType),
     market_analysis (_analyze_market_trends t) c =
       if 2 <=? Py.len (remembered_prices t c)
       then Some (stored_trend (remembered_prices t c))
       else market_analysis t c)
  /\
  (forall (t : AITrader) (c : CommodityType),
     remembered_prices t c = [100%Q; 110%Q] ->
     exists x : Q,
       market_analysis (_analyze_market_trends t) c = Some x /\ (x == 1 # 10)%Q).
Proof.
  assert (Hgen : forall (t : AITrader) (c : CommodityType),
     market_analysis (_analyze_market_trends t) c =
       if 2 <=? Py.len (remembered_prices t c)
       then Some (stored_trend (remembered_prices t c))
       else market_analysis t c).
  { intros t c.
    unfold _analyze_market_trends.
    rewrite analyze_fold, price_trend_stored.
    replace (cmem c all_commodities) with true by (destruct c; reflexivity).
    reflexivity. }
  split; [exact Hgen |].
  intros t c Hp. rewrite Hgen, Hp. simpl.
  eexists. split; [reflexivity |]. vm_compute. reflexivity.
Qed.

Lemma analyze_market_trends_stores_witness :
  exists x : Q,
    market_analysis (_analyze_market_trends two_price_trader) FOOD = Some x /\
    (x == 1 # 10)%Q.
Proof.
  apply (proj2 analyze_market_trends_stores two_price_trader FOOD). reflexivity.
Defined.

(** ** Destination planning *)

Section PlanLoop.

Variables (galaxy : Galaxy) (self : AITrader) (game_time : Q).

Let score (s : Station) : Q := _evaluate_station_opportunity galaxy self s game_time.

Lemma plan_step_inv (visited : list Station) (acc : option Station * Q) (x : Station) :
  plan_inv self score visited acc ->
  plan_inv self score (visited ++ [x]) (plan_step galaxy self game_time acc x).
Proof.
  intro Hinv. destruct acc as [best best_score].
  unfold plan_inv in Hinv. simpl in Hinv. unfold plan_inv, plan_step.
  destruct (Position_eqb (station_position x) (position (ship self))) eqn:Hpos.
  - (* a station where the ship stands is skipped *)
    assert (Hx : candidate self x = false) by (unfold candidate; now rewrite Hpos).
    destruct Hinv as [(Hb & Hs & Hall) | (before & s & after & Hv & Hb & Hs & Hc & Hp & Hbef & Haft)].
    + left. repeat split; trivial. intros s' Hin Hc.
      apply in_app_or in Hin. destruct Hin as [Hin | [<- | []]]; [auto | congruence].
    + right. exists before, s, (after ++ [x]). rewrite Hv, <- app_assoc. simpl.
      repeat split; trivial. intros s' Hin Hc'.
      apply in_app_or in Hin. destruct Hin as [Hin | [<- | []]]; [auto | congruence].
  - assert (Hx : candidate self x = true) by (unfold candidate; now rewrite Hpos).
    fold (score x).
    destruct (Py.gtb (score x) best_score) eqn:Hgt;
      [ apply gtb_spec in Hgt | apply gtb_false in Hgt ]; simpl in *.
    + (* strictly better: selected *)
      right. exists visited, x, []. simpl.
      destruct Hinv as [(Hb & Hs & Hall) | (before & s & after & Hv & Hb & Hs & Hc & Hp & Hbef & Haft)];
        subst best_score; repeat split; trivial; try lra; try (intros ? []).
      * intros s' Hin Hc. specialize (Hall s' Hin Hc). lra.
      * intros s' Hin Hc'. rewrite Hv in Hin.
        apply in_app_or in Hin. destruct Hin as [Hin | [<- | Hin]].
        -- specialize (Hbef s' Hin Hc'). lra.
        -- exact Hgt.
        -- specialize (Haft s' Hin Hc'). lra.
    + (* not strictly better: the earlier choice stays *)
      destruct Hinv as [(Hb & Hs & Hall) | (before & s & after & Hv & Hb & Hs & Hc & Hp & Hbef & Haft)];
        rewrite Hs in Hgt.
      * left. repeat split; trivial. intros s' Hin Hc.
        apply in_app_or in Hin. destruct Hin as [Hin | [<- | []]]; [auto | lra].
      * right. exists before, s, (after ++ [x]). rewrite Hv, <- app_assoc. simpl.
        repeat split; trivial. intros s' Hin Hc'.
        apply in_app_or in Hin. destruct Hin as [Hin | [<- | []]]; [auto | lra].
Qed.

Lemma plan_loop_inv (todo : list Station) :
  forall (visited : list Station) (acc : option Station * Q),
    plan_inv self score visited acc ->
    plan_inv self score (visited ++ todo) (fold_left (plan_step galaxy self game_time) todo acc).
Proof.
  induction todo as [| x todo IH]; intros visited acc Hinv; simpl.
  - now rewrite app_nil_r.
  - replace (visited ++ x :: todo) with ((visited ++ [x]) ++ todo)
      by (rewrite <- app_assoc; reflexivity).
    apply IH, plan_step_inv, Hinv.
Qed.

End PlanLoop.

(** C6: when [_plan_movement] re-evaluates the destination, stations at the
    ship's position are not considered; a station is selected only with a
    score strictly above the running best, which starts at 0, so the
    selected station scores above 0, strictly above every earlier candidate
    and at least as much as every later one (ties keep the earlier); and if
    no candidate scores above 0 the trader, its destination included, is
    left unchanged. *)
Theorem plan_movement_selection :
  forall (galaxy : Galaxy) (self : AITrader) (game_time roll : Q),
    reevaluates self roll = true ->
    let score := fun s => _evaluate_station_opportunity galaxy self s game_time in
    ((forall s, In s (stations galaxy) -> candidate self s = true -> (score s <= 0)%Q) /\
     _plan_movement galaxy self game_time roll = self)
    \/
    (exists before s after,
        stations galaxy = before ++ s :: after /\
        candidate self s = true /\
        (0 < score s)%Q /\
        (forall s', In s' before -> candidate self s' = true -> (score s' < score s)%Q) /\
        (forall s', In s' after -> candidate self s' = true -> (score s' <= score s)%Q) /\
        _plan_movement galaxy self game_time roll =
          set_ship self (set_destination (ship self) (Some (station_position s)))).
Proof.
  intros galaxy self game_time roll Hre score.
  unfold _plan_movement. unfold reevaluates in Hre. rewrite Hre.
  assert (Hbase : plan_inv self score [] (None, 0%Q)).
  { left. repeat split. intros s []. }
  pose proof (plan_loop_inv galaxy self game_time (stations galaxy) [] (None, 0%Q) Hbase)
    as Hinv.
  rewrite app_nil_l in Hinv.
  destruct (fold_left (plan_step galaxy self game_time) (stations galaxy) (None, 0%Q))
    as [best best_score].
  destruct Hinv as [(Hb & _ & Hall) | (before & s & after & Hv & Hb & _ & Hc & Hp & Hbef & Haft)];
    simpl in Hb; subst best.
  - left. split; [exact Hall | reflexivity].
  - right. exists before, s, after. repeat split; assumption.
Qed.

Lemma plan_movement_selection_witness :
  ((forall s, In s (stations small_galaxy) -> candidate (food_holder CAUTIOUS None) s = true ->
              (_evaluate_station_opportunity small_galaxy (food_holder CAUTIOUS None) s 0 <= 0)%Q) /\
   _plan_movement small_galaxy (food_holder CAUTIOUS None) 0 (1 # 2) = food_holder CAUTIOUS None)
  \/
  (exists before s after,
      stations small_galaxy = before ++ s :: after /\
      candidate (food_holder CAUTIOUS None) s = true /\
      (0 < _evaluate_station_opportunity small_galaxy (food_holder CAUTIOUS None) s 0)%Q /\
      (forall s', In s' before -> candidate (food_holder CAUTIOUS None) s' = true ->
                  (_evaluate_station_opportunity small_galaxy (food_holder CAUTIOUS None) s' 0
                   < _evaluate_station_opportunity small_galaxy (food_holder CAUTIOUS None) s 0)%Q) /\
      (forall s', In s' after -> candidate (food_holder CAUTIOUS None) s' = true ->
                  (_evaluate_station_opportunity small_galaxy (food_holder CAUTIOUS None) s' 0
                   <= _evaluate_station_opportunity small_galaxy (food_holder CAUTIOUS None) s 0)%Q) /\
      _plan_movement small_galaxy (food_holder CAUTIOUS None) 0 (1 # 2) =
        set_ship (food_holder CAUTIOUS None)
          (set_destination (ship (food_holder CAUTIOUS None)) (Some (station_position s)))).
Proof.
  apply (plan_movement_selection small_galaxy (food_holder CAUTIOUS None) 0 (1 # 2)).
  reflexivity.
Defined.

(** ** Movement *)

Lemma detour_find (galaxy : Galaxy) (self : AITrader) (dest : Position) :
  forall todo : list Station,
    detour galaxy self (position (ship self)) todo dest =
      match find (worth_a_detour galaxy self) todo with
      | Some station => station_position station
      | None => dest
      end.
Proof.
  induction todo as [| x todo IH]; [reflexivity |].
  cbn [detour find]. unfold worth_a_detour at 1.
  destruct ((distance_to (station_position x) (position (ship self)) <=? 2)
            && negb (Position_eqb (station_position x) (position (ship self)))); cbn [andb].
  - destruct (Py.gtb (_evaluate_station_opportunity galaxy self x 0) 100);
      [reflexivity | exact IH].
  - exact IH.
Qed.

(** C4, as stated, fails for an Opportunist whose detour roll succeeds: with
    the destination one quadrant away on the x axis and a station one sector
    away scoring above 100, the step changes sector-y and leaves quadrant-x,
    the first axis on which the position differs from the destination. *)
Lemma move_ship_detour_leaves_first_axis :
  destination (ship (food_holder OPPORTUNIST (Some (mkPosition 1 0 0 0))))
    = Some (mkPosition 1 0 0 0) /\
  first_differing_axis
    (position (ship (food_holder OPPORTUNIST (Some (mkPosition 1 0 0 0)))))
    (mkPosition 1 0 0 0) = Some QuadrantX /\
  position (ship (_move_ship small_galaxy
                    (food_holder OPPORTUNIST (Some (mkPosition 1 0 0 0))) 0))
    = mkPosition 0 0 0 1.
Proof. repeat split; vm_compute; reflexivity. Qed.

(** C4, amended: a [_move_ship] invocation with a destination set heads for
    the step's target, which is the stored destination unless the agent is
    an Opportunist whose roll is below 0.1 and some station within distance
    2, not at its position, scores above 100: then it is the position of
    the first such station.  The step changes exactly one coordinate, the
    first (in the order quadrant-x, quadrant-y, sector-x, sector-y) on which
    the current position differs from the target, by +1 or -1 toward the
    target, and leaves the other coordinates and the stored destination
    untouched; when all four coordinates match the target it clears the
    destination and changes no coordinate; with no destination set it
    changes nothing. *)
Theorem move_ship_single_step :
  forall (galaxy : Galaxy) (self : AITrader) (roll : Q),
    match destination (ship self) with
    | None => _move_ship galaxy self roll = self
    | Some stored =>
        let current := position (ship self) in
        let target := move_target galaxy self roll stored in
        let self' := _move_ship galaxy self roll in
        target =
          (if AIPersonality_eqb (personality (ship self)) OPPORTUNIST
              && Py.ltb roll (1 # 10)
           then match find (worth_a_detour galaxy self) (stations galaxy) with
                | Some station => station_position station
                | None => stored
                end
           else stored) /\
        match first_differing_axis current target with
        | Some a =>
            (coord a (position (ship self')) = coord a current + 1 \/
             coord a (position (ship self')) = coord a current - 1) /\
            Z.abs (coord a target - coord a (position (ship self')))
              = Z.abs (coord a target - coord a current) - 1 /\
            (forall b, b <> a -> coord b (position (ship self')) = coord b current) /\
            self' = set_ship self (set_position (ship self) (position (ship self')))
        | None =>
            self' = set_ship self (set_destination (ship self) None)
        end
    end.
Proof.
  intros galaxy self roll.
  destruct (destination (ship self)) as [stored |] eqn:Hdest;
    [| unfold _move_ship; now rewrite Hdest].
  cbv zeta. split.
  - unfold move_target.
    destruct (AIPersonality_eqb (personality (ship self)) OPPORTUNIST && Py.ltb roll (1 # 10));
      [apply detour_find | reflexivity].
  - unfold _move_ship. rewrite Hdest.
    set (target := move_target galaxy self roll stored).
    unfold first_differing_axis. cbn [find coord].
    destruct (Z.eqb_spec (quadrant_x (position (ship self))) (quadrant_x target)) as [Eqx | Nqx];
      cbn [negb].
    2: { destruct (Z.ltb_spec (quadrant_x (position (ship self))) (quadrant_x target));
         cbn; (repeat split; [lia | lia | intros [] Hb; congruence || reflexivity ]). }
    destruct (Z.eqb_spec (quadrant_y (position (ship self))) (quadrant_y target)) as [Eqy | Nqy];
      cbn [negb].
    2: { destruct (Z.ltb_spec (quadrant_y (position (ship self))) (quadrant_y target));
         cbn; (repeat split; [lia | lia | intros [] Hb; congruence || reflexivity ]). }
    destruct (Z.eqb_spec (sector_x (position (ship self))) (sector_x target)) as [Esx | Nsx];
      cbn [negb].
    2: { destruct (Z.ltb_spec (sector_x (position (ship self))) (sector_x target));
         cbn; (repeat split; [lia | lia | intros [] Hb; congruence || reflexivity ]). }
    destruct (Z.eqb_spec (sector_y (position (ship self))) (sector_y target)) as [Esy | Nsy];
      cbn [negb].
    2: { destruct (Z.ltb_spec (sector_y (position (ship self))) (sector_y target));
         cbn; (repeat split; [lia | lia | intros [] Hb; congruence || reflexivity ]). }
    reflexivity.
Qed.

(** ** Trade execution *)




(** The amount a personality sells of a held quantity. *)
Lemma sell_amount_bounds (p : AIPersonality) (quantity : Z) :
  0 < quantity ->
  0 < match p with
      | CAUTIOUS => Z.min quantity 5
      | AGGRESSIVE => Z.min quantity 15
      | _ => Z.min quantity 10
      end <= quantity.
Proof. destruct p; lia. Qed.



Lemma Ok_inj {A : Type} (a b : A) : Py.Ok a = Py.Ok b -> a = b.
Proof. intro H. now injection H. Qed.

(** What a positive buy amount is capped by. *)
Lemma should_buy_caps (t : AITrader) (c : CommodityType) (st : Station) (gt : Q) (amount : Z) :
  _should_buy_commodity t c st gt = Py.Ok amount ->
  0 <= amount /\
  (0 < amount ->
   ~ (commodities (market st) c == 0)%Q /\
   amount <= Qfloor (credits (ship t) * risk_tolerance (ship t) / commodities (market st) c) /\
   amount <= cargo_space_remaining (ship t) /\
   amount <= stock_levels (market st) c).
Proof.
  rewrite should_buy_eq. cbv zeta.
  destruct (refuses_to_buy _ _ _).
  - intro H. apply Ok_inj in H. subst amount. split; lia.
  - unfold Py.div, Py.eqb.
    destruct (Qeq_bool (commodities (market st) c) 0) eqn:E; cbn [Py.bind];
      [discriminate |].
    intro H. apply Ok_inj in H. subst amount. split; [lia |]. intro Hpos.
    split; [| lia].
    intro Hz. apply Qeq_bool_iff in Hz. congruence.
Qed.





(* ================================================================== *)
(** * Further properties of the code *)

(** ** The price response of [Market.adjust_price] *)

(** The clamp moves a value toward the band: what it returns lies between
    its argument and any point of the band. *)
Lemma clamp_toward (lo hi p x : Q) :
  (lo <= p)%Q -> (p <= hi)%Q ->
  ((p <= x)%Q -> (p <= Py.max lo (Py.min hi x) <= x)%Q) /\
  ((x <= p)%Q -> (x <= Py.max lo (Py.min hi x) <= p)%Q).
Proof.
  intros Hl Hh. unfold Py.max, Py.min.
  destruct (Py.ltb x hi) eqn:Hx;
    [ apply ltb_spec in Hx | apply ltb_false in Hx ].
  - destruct (Py.gtb x lo) eqn:Hg;
      [ apply gtb_spec in Hg | apply gtb_false in Hg ]; split; intro; lra.
  - destruct (Py.gtb hi lo) eqn:Hg;
      [ apply gtb_spec in Hg | apply gtb_false in Hg ]; split; intro; lra.
Qed.

(** The divisor of the price impact is at least 100. *)
Lemma damping_pos (stock : Z) : (0 < inject_Z (Z.max 100 stock))%Q.
Proof. change 0%Q with (inject_Z 0). rewrite <- Zlt_Qlt. lia. Qed.

(** [n / d] for integers, against bounds on [n]. *)
Lemma ratio_bounds (n d : Z) :
  0 < d ->
  (0 <= n -> (0 <= inject_Z n / inject_Z d)%Q) /\
  (n <= 0 -> (inject_Z n / inject_Z d <= 0)%Q) /\
  (- d <= n <= d -> (- (1) <= inject_Z n / inject_Z d <= 1)%Q).
Proof.
  intro Hd.
  assert (HdQ : (0 < inject_Z d)%Q)
    by (change 0%Q with (inject_Z 0); now rewrite <- Zlt_Qlt).
  repeat split.
  - intro Hn. apply Qle_shift_div_l; [exact HdQ |].
    rewrite Qmult_0_l. change 0%Q with (inject_Z 0). now rewrite <- Zle_Qle.
  - intro Hn. apply Qle_shift_div_r; [exact HdQ |].
    rewrite Qmult_0_l. change 0%Q with (inject_Z 0). now rewrite <- Zle_Qle.
  - apply Qle_shift_div_l; [exact HdQ |].
    setoid_replace (- (1) * inject_Z d)%Q with (inject_Z (- d))
      by (rewrite inject_Z_opp; ring).
    rewrite <- Zle_Qle. lia.
  - apply Qle_shift_div_r; [exact HdQ |].
    rewrite Qmult_1_l. rewrite <- Zle_Qle. lia.
Qed.

(** The price before clamping, against the sign and size of the impact. *)
Lemma new_price_bounds (p r : Q) :
  (0 <= p)%Q ->
  ((0 <= r)%Q -> (p <= p * (1 + r * (1 # 10)))%Q) /\
  ((r <= 0)%Q -> (p * (1 + r * (1 # 10)) <= p)%Q) /\
  ((- (1) <= r)%Q -> (p * (9 # 10) <= p * (1 + r * (1 # 10)))%Q) /\
  ((r <= 1)%Q -> (p * (1 + r * (1 # 10)) <= p * (11 # 10))%Q).
Proof.
  intro Hp.
  assert (E : forall s, (p * (1 + r * (1 # 10)) == p * s + p * ((1 - s) + r * (1 # 10)))%Q)
    by (intro s; ring).
  repeat split; intro Hr.
  - rewrite (E 1%Q). assert (0 <= p * (1 - 1 + r * (1 # 10)))%Q
      by (apply Qmult_le_0_compat; lra). lra.
  - rewrite (E 1%Q). assert (0 <= p * - (1 - 1 + r * (1 # 10)))%Q
      by (apply Qmult_le_0_compat; lra). lra.
  - rewrite (E (9 # 10)%Q). assert (0 <= p * (1 - (9 # 10) + r * (1 # 10)))%Q
      by (apply Qmult_le_0_compat; lra). lra.
  - rewrite (E (11 # 10)%Q). assert (0 <= p * - (1 - (11 # 10) + r * (1 # 10)))%Q
      by (apply Qmult_le_0_compat; lra). lra.
Qed.

Lemma band_price_nonneg (m : Market) (c : CommodityType) :
  price_in_band m c -> (0 <= commodities m c)%Q.
Proof. intros [Hlo _]. pose proof (base_price_posQ c). lra. Qed.

(** The direction of the price response, from a price inside its band. *)
Lemma price_moves (m : Market) (c : CommodityType) (q : Z) :
  price_in_band m c ->
  (q <= 0 -> (commodities m c <= commodities (adjust_price m c q) c)%Q) /\
  (0 <= q -> (commodities (adjust_price m c q) c <= commodities m c)%Q).
Proof.
  intro Hband.
  pose proof (band_price_nonneg m c Hband) as Hp. destruct Hband as [Hlo Hhi].
  unfold adjust_price; simpl. rewrite cset_same.
  set (r := (inject_Z (- q) / inject_Z (Z.max 100 (stock_levels m c)))%Q).
  destruct (ratio_bounds (- q) (Z.max 100 (stock_levels m c)) ltac:(lia))
    as (Hpos & Hneg & _). fold r in Hpos, Hneg.
  destruct (new_price_bounds (commodities m c) r Hp) as (Hup & Hdown & _).
  destruct (clamp_toward _ _ _ (commodities m c * (1 + r * (1 # 10)))%Q Hlo Hhi)
    as [Habove Hbelow].
  split; intro Hq.
  - apply Habove, Hup, Hpos. lia.
  - apply Hbelow, Hdown, Hneg. lia.
Qed.

(** X1: a buy (negative change) never lowers the price of the commodity and
    a sell (positive change) never raises it, when the price starts inside
    its band. *)
Theorem adjust_price_direction :
  forall (m : Market) (c : CommodityType) (quantity_change : Z),
    price_in_band m c ->
    (quantity_change <= 0 ->
     (commodities m c <= commodities (adjust_price m c quantity_change) c)%Q) /\
    (0 <= quantity_change ->
     (commodities (adjust_price m c quantity_change) c <= commodities m c)%Q).
Proof.
  intros m c q Hband.
  destruct (price_moves m c q Hband) as [Hbuy Hsell].
  split; [exact Hbuy | exact Hsell].
Qed.

Lemma adjust_price_direction_witness :
  (-50 <= 0 ->
   (commodities (flat_market 95 40) FOOD
    <= commodities (adjust_price (flat_market 95 40) FOOD (-50)) FOOD)%Q) /\
  (0 <= -50 ->
   (commodities (adjust_price (flat_market 95 40) FOOD (-50)) FOOD
    <= commodities (flat_market 95 40) FOOD)%Q).
Proof.
  apply (adjust_price_direction (flat_market 95 40) FOOD (-50)).
  split; vm_compute; discriminate.
Defined.



(** ** The loops of [_trade_at_station] *)

(** What one pass of the selling loop does: nothing, or one sale of a
    positive amount, at most the quantity of the snapshot, at a price above
    the base price. *)
Lemma sell_step_cases (gt : Q) (t : AITrader) (st : Station) (profit : Q)
    (c : CommodityType) (quantity : Z) :
  sell_step gt (t, st, profit) (c, quantity) = (t, st, profit) \/
  exists amount : Z,
    0 < amount <= quantity /\
    _should_sell_commodity t c st gt = true /\
    sell_step gt (t, st, profit) (c, quantity) =
      (fst (sold t st c amount), snd (sold t st c amount),
       (profit + inject_Z amount
                 * (commodities (market st) c - inject_Z (_get_base_price c)))%Q).
Proof.
  unfold sell_step.
  destruct ((0 <? quantity) && _should_sell_commodity t c st gt) eqn:E;
    [| left; reflexivity].
  apply andb_prop in E. destruct E as [Hq Hsell]. apply Z.ltb_lt in Hq.
  right.
  exists (match personality (ship t) with
          | CAUTIOUS => Z.min quantity 5
          | AGGRESSIVE => Z.min quantity 15
          | _ => Z.min quantity 10
          end).
  split; [apply sell_amount_bounds; exact Hq |]. split; [exact Hsell | reflexivity].
Qed.

(** The result of [_trade_at_station] in terms of its two loops. *)
Lemma trade_at_station_eq (t : AITrader) (st : Station) (gt : Q) :
  _trade_at_station t st gt =
    if Py.ltb (gt - last_trade_time (ship t)) (2 - risk_tolerance (ship t)) then
      (t, st, None)
    else
      match trade_loops t st gt with
      | (t2, st2, _, Some e) => (t2, st2, Some e)
      | (t2, st2, total_profit, None) =>
          let t3 :=
            if negb (Py.eqb total_profit 0) then
              set_profit_history t2
                (if 10 <? Py.len (profit_history t2 ++ [total_profit])
                 then tl (profit_history t2 ++ [total_profit])
                 else profit_history t2 ++ [total_profit])
            else t2 in
          (set_ship t3 (set_last_trade_time (ship t3) gt), st2, None)
      end.
Proof.
  unfold _trade_at_station, trade_loops.
  destruct (Py.ltb (gt - last_trade_time (ship t)) (2 - risk_tolerance (ship t)));
    [reflexivity |].
  destruct (fold_left (sell_step gt)
              (map (fun c => (c, cargo_hold (ship t) c)) all_commodities) (t, st, 0%Q))
    as [[t1 st1] profit].
  destruct (buy_loop gt all_commodities t1 st1) as [[t2 st2] [e |]]; reflexivity.
Qed.

Section TradeInduction.

(** A property of the trader and the station that every sale and every
    purchase the policy allows keeps. *)
Variable P : AITrader -> Station -> Prop.
Variable gt : Q.

Hypothesis P_sold :
  forall t st c amount,
    P t st -> 0 < amount -> _should_sell_commodity t c st gt = true ->
    P (fst (sold t st c amount)) (snd (sold t st c amount)).

Hypothesis P_bought :
  forall t st c amount,
    P t st -> 0 < amount -> _should_buy_commodity t c st gt = Py.Ok amount ->
    P (fst (bought t st c amount)) (snd (bought t st c amount)).

Lemma sell_fold_keeps (items : list (CommodityType * Z)) :
  forall t st profit,
    P t st ->
    P (fst (fst (fold_left (sell_step gt) items (t, st, profit))))
      (snd (fst (fold_left (sell_step gt) items (t, st, profit)))).
Proof.
  induction items as [| [c q] items IH]; intros t st profit HP; cbn [fold_left].
  - exact HP.
  - destruct (sell_step_cases gt t st profit c q) as [E | (a & [Ha _] & Hs & E)];
      rewrite E; apply IH; [exact HP |].
    now apply P_sold.
Qed.

Lemma buy_loop_keeps (todo : list CommodityType) :
  forall t st,
    P t st ->
    P (fst (fst (buy_loop gt todo t st))) (snd (fst (buy_loop gt todo t st))).
Proof.
  induction todo as [| c todo IH]; intros t st HP; cbn [buy_loop].
  - exact HP.
  - destruct (_should_buy_commodity t c st gt) as [amount | e] eqn:Ebuy;
      [| exact HP].
    destruct (0 <? amount) eqn:Epos; [| now apply IH].
    apply Z.ltb_lt in Epos.
    apply (IH (fst (bought t st c amount)) (snd (bought t st c amount))).
    now apply P_bought.
Qed.

Lemma trade_loops_keep (t : AITrader) (st : Station) :
  P t st ->
  P (fst (fst (fst (trade_loops t st gt)))) (snd (fst (fst (trade_loops t st gt)))).
Proof.
  intro HP. unfold trade_loops.
  pose proof (sell_fold_keeps
                (map (fun c => (c, cargo_hold (ship t) c)) all_commodities) t st 0%Q HP)
    as Hsell.
  destruct (fold_left (sell_step gt)
              (map (fun c => (c, cargo_hold (ship t) c)) all_commodities) (t, st, 0%Q))
    as [[t1 st1] profit].
  cbn [fst snd] in Hsell.
  pose proof (buy_loop_keeps all_commodities t1 st1 Hsell) as Hbuy.
  destruct (buy_loop gt all_commodities t1 st1) as [[t2 st2] e].
  exact Hbuy.
Qed.

End TradeInduction.

(** [adjust_price] touches one commodity. *)
Lemma adjust_price_other (m : Market) (c k : CommodityType) (q : Z) :
  k <> c ->
  commodities (adjust_price m c q) k = commodities m k /\
  stock_levels (adjust_price m c q) k = stock_levels m k.
Proof.
  intro Hk. unfold adjust_price; simpl. split; now apply cset_other.
Qed.

Lemma CommodityType_eq_dec (a b : CommodityType) : {a = b} + {a <> b}.
Proof. decide equality. Qed.

Lemma adjust_price_market_ok (m : Market) (c : CommodityType) (q : Z) :
  market_ok m -> market_ok (adjust_price m c q).
Proof.
  intros Hok k. destruct (CommodityType_eq_dec k c) as [-> | Hk].
  - split; [apply adjust_price_price_band | rewrite adjust_price_stock; lia].
  - destruct (adjust_price_other m c k q Hk) as [Ep Es].
    unfold price_in_band. rewrite Ep, Es. apply Hok.
Qed.

Lemma sold_eq (t : AITrader) (st : Station) (c : CommodityType) (a : Z) :
  cargo_hold (ship (fst (sold t st c a)))
    = cset (cargo_hold (ship t)) c (cargo_hold (ship t) c - a) /\
  credits (ship (fst (sold t st c a)))
    = (credits (ship t) + inject_Z a * commodities (market st) c)%Q /\
  market (snd (sold t st c a)) = adjust_price (market st) c a.
Proof. repeat split. Qed.

Lemma bought_eq (t : AITrader) (st : Station) (c : CommodityType) (a : Z) :
  cargo_hold (ship (fst (bought t st c a)))
    = cset (cargo_hold (ship t)) c (cargo_hold (ship t) c + a) /\
  credits (ship (fst (bought t st c a)))
    = (credits (ship t) - inject_Z a * commodities (market st) c)%Q /\
  market (snd (bought t st c a)) = adjust_price (market st) c (- a).
Proof. repeat split. Qed.

(** The part of [_trade_at_station] after the loops leaves the station and
    the cargo and credits of the ship as the loops left them. *)
Lemma trade_at_station_books (t : AITrader) (st : Station) (gt : Q) :
  let r := _trade_at_station t st gt in
  (r = (t, st, None)) \/
  (snd (fst r) = snd (fst (fst (trade_loops t st gt))) /\
   cargo_hold (ship (fst (fst r)))
     = cargo_hold (ship (fst (fst (fst (trade_loops t st gt))))) /\
   credits (ship (fst (fst r)))
     = credits (ship (fst (fst (fst (trade_loops t st gt)))))).
Proof.
  cbv zeta. rewrite trade_at_station_eq.
  destruct (Py.ltb (gt - last_trade_time (ship t)) (2 - risk_tolerance (ship t)));
    [left; reflexivity | right].
  destruct (trade_loops t st gt) as [[[t2 st2] profit] [e |]]; cbn [fst snd].
  - repeat split.
  - destruct (negb (Py.eqb profit 0)); repeat split.
Qed.

Lemma trade_loops_market_ok (t : AITrader) (st : Station) (gt : Q) :
  market_ok (market st) ->
  market_ok (market (snd (fst (fst (trade_loops t st gt))))).
Proof.
  intro Hok.
  apply (trade_loops_keep (fun _ st => market_ok (market st)) gt); [| | exact Hok].
  - intros t1 st1 c a HP _ _. destruct (sold_eq t1 st1 c a) as (_ & _ & ->).
    now apply adjust_price_market_ok.
  - intros t1 st1 c a HP _ _. destruct (bought_eq t1 st1 c a) as (_ & _ & ->).
    now apply adjust_price_market_ok.
Qed.

(** X3: a well-formed market (every price in its band, no negative stock)
    is still well-formed after [_trade_at_station], also when the call ends
    with an exception. *)
Theorem trade_at_station_market_ok :
  forall (t : AITrader) (st : Station) (game_time : Q),
    market_ok (market st) ->
    market_ok (market (snd (fst (_trade_at_station t st game_time)))).
Proof.
  intros t st gt Hok.
  destruct (trade_at_station_books t st gt) as [E | (Est & _ & _)];
    [rewrite E; exact Hok | rewrite Est].
  now apply trade_loops_market_ok.
Qed.

Lemma base_market_ok : market_ok (market near_station).
Proof.
  intro c. split; [| simpl; lia].
  destruct c; split; vm_compute; discriminate.
Qed.

Lemma trade_at_station_market_ok_witness :
  market_ok (market (snd (fst (_trade_at_station trading_trader near_station 5)))).
Proof.
  apply (trade_at_station_market_ok trading_trader near_station 5). exact base_market_ok.
Defined.

(** X4: [_trade_at_station] conserves goods: when no stock of the station
    is negative, then for every commodity the units in the hold plus the
    units in stock are the same after the call as before it, and no stock
    is negative after it. *)
Theorem trade_at_station_conserves_goods :
  forall (t : AITrader) (st : Station) (game_time : Q),
    (forall c, 0 <= stock_levels (market st) c) ->
    let t' := fst (fst (_trade_at_station t st game_time)) in
    let st' := snd (fst (_trade_at_station t st game_time)) in
    forall c,
      0 <= stock_levels (market st') c /\
      cargo_hold (ship t') c + stock_levels (market st') c
        = cargo_hold (ship t) c + stock_levels (market st) c.
Proof.
  intros t st gt Hstock t' st'. unfold t', st'.
  destruct (trade_at_station_books t st gt) as [E | (Est & Ecargo & _)];
    [rewrite E; intro c; split; [apply Hstock | reflexivity] |].
  rewrite Est, Ecargo.
  apply (trade_loops_keep
           (fun t1 st1 => forall c,
                0 <= stock_levels (market st1) c /\
                cargo_hold (ship t1) c + stock_levels (market st1) c
                  = cargo_hold (ship t) c + stock_levels (market st) c) gt).
  - (* a sale *)
    intros t1 st1 k a HP Ha _ c.
    destruct (sold_eq t1 st1 k a) as (-> & _ & ->).
    destruct (CommodityType_eq_dec c k) as [-> | Hc].
    + rewrite cset_same, adjust_price_stock. destruct (HP k). lia.
    + destruct (adjust_price_other (market st1) k c a Hc) as [_ Es].
      rewrite Es, cset_other by exact Hc. apply HP.
  - (* a purchase: at most the stock *)
    intros t1 st1 k a HP Ha Hbuy c.
    destruct (bought_eq t1 st1 k a) as (-> & _ & ->).
    destruct (should_buy_caps t1 k st1 gt a Hbuy) as [_ Hcaps].
    destruct (Hcaps Ha) as (_ & _ & _ & Hs).
    destruct (CommodityType_eq_dec c k) as [-> | Hc].
    + rewrite cset_same, adjust_price_stock. destruct (HP k). lia.
    + destruct (adjust_price_other (market st1) k c (- a) Hc) as [_ Es].
      rewrite Es, cset_other by exact Hc. apply HP.
  - intro c. split; [apply Hstock | reflexivity].
Qed.

Lemma trade_at_station_conserves_goods_witness :
  0 <= stock_levels
         (market (snd (fst (_trade_at_station trading_trader near_station 5)))) FOOD /\
  cargo_hold (ship (fst (fst (_trade_at_station trading_trader near_station 5)))) FOOD
  + stock_levels (market (snd (fst (_trade_at_station trading_trader near_station 5)))) FOOD
  = cargo_hold (ship trading_trader) FOOD + stock_levels (market near_station) FOOD.
Proof.
  apply (trade_at_station_conserves_goods trading_trader near_station 5).
  intro c. simpl. lia.
Defined.

Lemma trade_loops_frame (t : AITrader) (st : Station) (gt : Q) :
  same_outside_books t (fst (fst (fst (trade_loops t st gt)))) /\
  same_station st (snd (fst (fst (trade_loops t st gt)))).
Proof.
  apply (trade_loops_keep
           (fun t1 st1 => same_outside_books t t1 /\ same_station st st1) gt).
  - intros t1 st1 c a [Ht Hs] _ _. split; [exact Ht | exact Hs].
  - intros t1 st1 c a [Ht Hs] _ _. split; [exact Ht | exact Hs].
  - split; repeat split.
Qed.

(** X5: [_trade_at_station] changes nothing but the cargo, the credits, the
    last trade time and the profit history of the trader, and the prices
    and stock of the station: the ship is not moved, its destination,
    capacity and character stay, the trader's memory and trends stay, and
    the station keeps its name, type, position and multipliers. *)
Theorem trade_at_station_frame :
  forall (t : AITrader) (st : Station) (game_time : Q),
    same_outside_books t (fst (fst (_trade_at_station t st game_time))) /\
    same_station st (snd (fst (_trade_at_station t st game_time))).
Proof.
  intros t st gt.
  pose proof (trade_loops_frame t st gt) as Hloops.
  rewrite trade_at_station_eq.
  destruct (Py.ltb (gt - last_trade_time (ship t)) (2 - risk_tolerance (ship t)));
    [split; repeat split |].
  destruct (trade_loops t st gt) as [[[t2 st2] profit] [e |]]; cbn [fst snd] in *.
  - exact Hloops.
  - destruct Hloops as [Ht Hs]. split; [| exact Hs].
    destruct (negb (Py.eqb profit 0)); exact Ht.
Qed.

(** A sale happens only above the base price. *)
Lemma should_sell_above_base (t : AITrader) (c : CommodityType) (st : Station) (gt : Q) :
  _should_sell_commodity t c st gt = true ->
  (inject_Z (_get_base_price c) < commodities (market st) c)%Q.
Proof.
  intro H.
  assert (Hm : ((3 # 100)
                <= (commodities (market st) c - inject_Z (_get_base_price c))
                   / inject_Z (_get_base_price c))%Q).
  { unfold _should_sell_commodity in H.
    destruct (Py.gtb match market_analysis t c with Some t0 => t0 | None => 0%Q end (1 # 10)
              && Py.gtb (patience (ship t)) (7 # 10)); [discriminate H |].
    apply geb_spec in H. eapply Qle_trans; [| exact H].
    destruct (personality (ship t));
      try destruct (cmem c (preferred_commodities (ship t)));
      unfold Qle; simpl; lia. }
  pose proof (base_price_posQ c) as Hb.
  set (b := inject_Z (_get_base_price c)) in *.
  set (p := commodities (market st) c) in *.
  destruct (Qlt_le_dec b p) as [Hp | Hp]; [exact Hp | exfalso].
  assert (Hneg : ((p - b) / b <= 0)%Q).
  { apply Qle_shift_div_r; [exact Hb | lra]. }
  lra.
Qed.

(** The profit the selling loop adds up is never negative. *)
Lemma sell_fold_profit (gt : Q) (items : list (CommodityType * Z)) :
  forall t st profit,
    (0 <= profit)%Q ->
    (0 <= snd (fold_left (sell_step gt) items (t, st, profit)))%Q.
Proof.
  induction items as [| [c q] items IH]; intros t st profit Hp; cbn [fold_left].
  - exact Hp.
  - destruct (sell_step_cases gt t st profit c q) as [E | (a & [Ha _] & Hs & E)];
      rewrite E; apply IH; [exact Hp |].
    apply should_sell_above_base in Hs.
    assert (HaQ : (0 <= inject_Z a)%Q)
      by (change 0%Q with (inject_Z 0); rewrite <- Zle_Qle; lia).
    assert (0 <= inject_Z a
                 * (commodities (market st) c - inject_Z (_get_base_price c)))%Q
      by (apply Qmult_le_0_compat; lra).
    lra.
Qed.

Lemma trade_loops_profit (t : AITrader) (st : Station) (gt : Q) :
  (0 <= snd (fst (trade_loops t st gt)))%Q.
Proof.
  unfold trade_loops.
  pose proof (sell_fold_profit gt
                (map (fun c => (c, cargo_hold (ship t) c)) all_commodities) t st 0%Q
                ltac:(lra)) as H.
  destruct (fold_left (sell_step gt)
              (map (fun c => (c, cargo_hold (ship t) c)) all_commodities) (t, st, 0%Q))
    as [[t1 st1] profit].
  destruct (buy_loop gt all_commodities t1 st1) as [[t2 st2] e]. exact H.
Qed.

Lemma trade_loops_history (t : AITrader) (st : Station) (gt : Q) :
  profit_history (fst (fst (fst (trade_loops t st gt)))) = profit_history t.
Proof.
  apply (trade_loops_keep (fun t1 _ => profit_history t1 = profit_history t) gt);
    trivial.
Qed.

(** X6: the profit history stays a list of at most 10 entries, each of them
    positive, across [_trade_at_station]. *)
Theorem trade_at_station_profit_history :
  forall (t : AITrader) (st : Station) (game_time : Q),
    (List.length (profit_history t) <= 10)%nat ->
    Forall (fun x => (0 < x)%Q) (profit_history t) ->
    let t' := fst (fst (_trade_at_station t st game_time)) in
    (List.length (profit_history t') <= 10)%nat /\
    Forall (fun x => (0 < x)%Q) (profit_history t').
Proof.
  intros t st gt Hlen Hpos t'. unfold t'. rewrite trade_at_station_eq.
  destruct (Py.ltb (gt - last_trade_time (ship t)) (2 - risk_tolerance (ship t)));
    [split; assumption |].
  pose proof (trade_loops_profit t st gt) as Hprofit.
  pose proof (trade_loops_history t st gt) as Hhist.
  destruct (trade_loops t st gt) as [[[t2 st2] profit] [e |]]; cbn [fst snd] in *.
  - rewrite Hhist. split; assumption.
  - destruct (negb (Py.eqb profit 0)) eqn:Enz; cbn; rewrite Hhist;
      [| split; assumption].
    assert (Hgt : (0 < profit)%Q).
    { apply negb_true_iff in Enz. unfold Py.eqb in Enz.
      destruct (Qle_lt_or_eq _ _ Hprofit) as [H | H]; [exact H |].
      symmetry in H. apply Qeq_bool_iff in H. congruence. }
    assert (Hall : Forall (fun x => (0 < x)%Q) (profit_history t ++ [profit]))
      by (apply Forall_app; split; [assumption | repeat constructor; exact Hgt]).
    unfold Py.len. rewrite length_app. cbn [List.length].
    destruct (10 <? Z.of_nat (List.length (profit_history t) + 1)) eqn:E.
    + split.
      * destruct (profit_history t) as [| x h]; cbn in *; [lia |].
        rewrite length_app. cbn. lia.
      * destruct (profit_history t ++ [profit]) as [| x h] eqn:El; [constructor |].
        cbn. now inversion Hall.
    + apply Z.ltb_ge in E. split; [rewrite length_app; cbn; lia | exact Hall].
Qed.

Lemma trade_at_station_profit_history_witness :
  (List.length
     (profit_history (fst (fst (_trade_at_station trading_trader near_station 5))))
   <= 10)%nat /\
  Forall (fun x => (0 < x)%Q)
    (profit_history (fst (fst (_trade_at_station trading_trader near_station 5)))).
Proof.
  apply (trade_at_station_profit_history trading_trader near_station 5).
  - simpl. lia.
  - constructor.
Defined.

Lemma trade_loops_risk (t : AITrader) (st : Station) (gt : Q) :
  risk_tolerance (ship (fst (fst (fst (trade_loops t st gt)))))
  = risk_tolerance (ship t).
Proof.
  apply (trade_loops_keep
           (fun t1 _ => risk_tolerance (ship t1) = risk_tolerance (ship t)) gt);
    trivial.
Qed.

(** X7: a trade that completed is not repeated at the same time: when the
    risk tolerance is below 2 and [_trade_at_station] returned without an
    exception, calling it again with the same [game_time] on the resulting
    trader and station changes nothing. *)
Theorem trade_at_station_not_repeated :
  forall (t : AITrader) (st : Station) (game_time : Q),
    (risk_tolerance (ship t) < 2)%Q ->
    snd (_trade_at_station t st game_time) = None ->
    _trade_at_station (fst (fst (_trade_at_station t st game_time)))
                      (snd (fst (_trade_at_station t st game_time))) game_time
    = _trade_at_station t st game_time.
Proof.
  intros t st gt Hrisk Hnone.
  destruct (Py.ltb (gt - last_trade_time (ship t)) (2 - risk_tolerance (ship t)))
    eqn:Egate.
  - (* the first call was too early: so is the second *)
    assert (E : _trade_at_station t st gt = (t, st, None))
      by (rewrite trade_at_station_eq, Egate; reflexivity).
    rewrite E. cbn [fst snd]. exact E.
  - pose proof (trade_loops_risk t st gt) as Hr.
    assert (E : exists t3 st2,
               _trade_at_station t st gt
               = (set_ship t3 (set_last_trade_time (ship t3) gt), st2, None)
               /\ risk_tolerance (ship t3) = risk_tolerance (ship t)).
    { rewrite trade_at_station_eq, Egate in Hnone |- *.
      destruct (trade_loops t st gt) as [[[t2 st2] profit] [e |]]; cbn [fst snd] in *;
        [discriminate Hnone |].
      eexists. exists st2. split; [reflexivity |].
      destruct (negb (Py.eqb profit 0)); exact Hr. }
    destruct E as (t3 & st2 & E & Hr3). rewrite E. cbn [fst snd].
    rewrite trade_at_station_eq.
    replace (Py.ltb
               (gt - last_trade_time (ship (set_ship t3 (set_last_trade_time (ship t3) gt))))
               (2 - risk_tolerance (ship (set_ship t3 (set_last_trade_time (ship t3) gt)))))
      with true; [reflexivity |].
    symmetry. apply ltb_spec. cbn. rewrite Hr3. lra.
Qed.

Lemma trade_at_station_not_repeated_witness :
  _trade_at_station (fst (fst (_trade_at_station trading_trader near_station 5)))
                    (snd (fst (_trade_at_station trading_trader near_station 5))) 5
  = _trade_at_station trading_trader near_station 5.
Proof.
  apply (trade_at_station_not_repeated trading_trader near_station 5).
  - vm_compute. reflexivity.
  - vm_compute. reflexivity.
Defined.

(** ** Movement *)

(** The detour loop returns the destination it was given or the position of
    a station of the galaxy. *)
Lemma detour_target (galaxy : Galaxy) (self : AITrader) (current dest : Position) :
  forall todo : list Station,
    detour galaxy self current todo dest = dest \/
    exists s, In s todo /\ detour galaxy self current todo dest = station_position s.
Proof.
  induction todo as [| x todo IH]; [left; reflexivity |].
  cbn [detour].
  destruct ((distance_to (station_position x) current <=? 2)
            && negb (Position_eqb (station_position x) current)).
  - destruct (Py.gtb (_evaluate_station_opportunity galaxy self x 0) 100).
    + right. exists x. split; [now left | reflexivity].
    + destruct IH as [E | (s & Hin & E)]; [now left |].
      right. exists s. split; [now right | exact E].
  - destruct IH as [E | (s & Hin & E)]; [now left |].
    right. exists s. split; [now right | exact E].
Qed.

(** One step of [_move_ship] toward a target, coordinate by coordinate: the
    new position is one of nine, and each coordinate stays between the old
    one and the target's. *)
Lemma move_ship_step (galaxy : Galaxy) (self : AITrader) (roll : Q) (stored : Position) :
  destination (ship self) = Some stored ->
  let current := position (ship self) in
  let target := move_target galaxy self roll stored in
  let self' := _move_ship galaxy self roll in
  (steps_between current target = 0 /\
   self' = set_ship self (set_destination (ship self) None)) \/
  (steps_between (position (ship self')) target = steps_between current target - 1 /\
   self' = set_ship self (set_position (ship self) (position (ship self'))) /\
   forall a,
     Z.min (coord a current) (coord a target) <= coord a (position (ship self'))
     <= Z.max (coord a current) (coord a target)).
Proof.
  intro Hdest. cbv zeta. unfold _move_ship. rewrite Hdest.
  set (target := move_target galaxy self roll stored).
  unfold steps_between.
  destruct (Z.eqb_spec (quadrant_x (position (ship self))) (quadrant_x target)) as [Eqx | Nqx];
    cbn [negb].
  2: { right. destruct (Z.ltb_spec (quadrant_x (position (ship self))) (quadrant_x target));
       cbn; (split; [lia | split; [reflexivity | intros []; cbn; lia]]). }
  destruct (Z.eqb_spec (quadrant_y (position (ship self))) (quadrant_y target)) as [Eqy | Nqy];
    cbn [negb].
  2: { right. destruct (Z.ltb_spec (quadrant_y (position (ship self))) (quadrant_y target));
       cbn; (split; [lia | split; [reflexivity | intros []; cbn; lia]]). }
  destruct (Z.eqb_spec (sector_x (position (ship self))) (sector_x target)) as [Esx | Nsx];
    cbn [negb].
  2: { right. destruct (Z.ltb_spec (sector_x (position (ship self))) (sector_x target));
       cbn; (split; [lia | split; [reflexivity | intros []; cbn; lia]]). }
  destruct (Z.eqb_spec (sector_y (position (ship self))) (sector_y target)) as [Esy | Nsy];
    cbn [negb].
  2: { right. destruct (Z.ltb_spec (sector_y (position (ship self))) (sector_y target));
       cbn; (split; [lia | split; [reflexivity | intros []; cbn; lia]]). }
  left. split; [lia | reflexivity].
Qed.

(** X8: [_move_ship] keeps the ship on the grid: when the ship, its stored
    destination and every station lie in [[0, 8)] on all four coordinates,
    so does the ship after the step, detour or not. *)
Theorem move_ship_stays_in_grid :
  forall (galaxy : Galaxy) (self : AITrader) (roll : Q),
    in_grid (position (ship self)) ->
    (forall d, destination (ship self) = Some d -> in_grid d) ->
    (forall s, In s (stations galaxy) -> in_grid (station_position s)) ->
    in_grid (position (ship (_move_ship galaxy self roll))).
Proof.
  intros galaxy self roll Hpos Hdest Hstations.
  destruct (destination (ship self)) as [stored |] eqn:Ed;
    [| unfold _move_ship; rewrite Ed; exact Hpos].
  assert (Htarget : in_grid (move_target galaxy self roll stored)).
  { unfold move_target.
    destruct (AIPersonality_eqb (personality (ship self)) OPPORTUNIST
              && Py.ltb roll (1 # 10)); [| now apply Hdest].
    destruct (detour_target galaxy self (position (ship self)) stored (stations galaxy))
      as [E | (s & Hin & E)]; rewrite E; [now apply Hdest | now apply Hstations]. }
  destruct (move_ship_step galaxy self roll stored Ed) as [[_ E] | (_ & _ & Hbetween)].
  - rewrite E. exact Hpos.
  - destruct Hpos as (H1 & H2 & H3 & H4). destruct Htarget as (T1 & T2 & T3 & T4).
    pose proof (Hbetween QuadrantX) as B1. pose proof (Hbetween QuadrantY) as B2.
    pose proof (Hbetween SectorX) as B3. pose proof (Hbetween SectorY) as B4.
    cbn [coord] in B1, B2, B3, B4.
    unfold in_grid. lia.
Qed.

Lemma move_ship_stays_in_grid_witness :
  in_grid (position (ship (_move_ship small_galaxy
                             (food_holder OPPORTUNIST (Some (mkPosition 1 0 0 0))) 0))).
Proof.
  apply (move_ship_stays_in_grid small_galaxy
           (food_holder OPPORTUNIST (Some (mkPosition 1 0 0 0))) 0).
  - unfold in_grid; simpl; lia.
  - intros d Hd. injection Hd as <-. unfold in_grid; simpl; lia.
  - intros s [<- | [<- | []]]; unfold in_grid; simpl; lia.
Defined.

Lemma steps_between_zero (p q : Position) : steps_between p q = 0 -> p = q.
Proof.
  destruct p as [a b c d], q as [a' b' c' d']. unfold steps_between; simpl.
  intro H. f_equal; lia.
Qed.

Lemma no_detour_target (galaxy : Galaxy) (self : AITrader) (roll : Q) (d : Position) :
  no_detour self roll = true -> move_target galaxy self roll d = d.
Proof.
  unfold no_detour, move_target. intro H. apply negb_true_iff in H. now rewrite H.
Qed.

(** X9: without a detour, [_move_ship] walks to the stored destination: from
    a position [n] single steps away, [n] invocations put the ship on the
    destination, which is still stored, and the next invocation clears
    it. *)
Theorem move_ship_reaches_destination :
  forall (galaxy : Galaxy) (rolls : list Q) (self : AITrader) (d : Position),
    destination (ship self) = Some d ->
    Forall (fun roll => no_detour self roll = true) rolls ->
    Z.of_nat (List.length rolls) = steps_between (position (ship self)) d ->
    let self' := fold_left (_move_ship galaxy) rolls self in
    position (ship self') = d /\
    destination (ship self') = Some d /\
    forall roll,
      no_detour self roll = true ->
      _move_ship galaxy self' roll = set_ship self' (set_destination (ship self') None).
Proof.
  intros galaxy rolls. induction rolls as [| r rolls IH]; intros self d Hd Hrolls Hlen.
  - cbn [fold_left List.length] in *.
    assert (Hpos : position (ship self) = d)
      by (apply steps_between_zero; lia).
    split; [exact Hpos |]. split; [exact Hd |].
    intros roll Hroll.
    destruct (move_ship_step galaxy self roll d Hd) as [[_ E] | (Hstep & _)];
      [exact E |].
    rewrite (no_detour_target galaxy self roll d Hroll), Hpos in Hstep.
    assert (H0 : steps_between d d = 0) by (unfold steps_between; lia).
    pose proof (Z.abs_nonneg 0).
    assert (0 <= steps_between (position (ship (_move_ship galaxy self roll))) d)
      by (unfold steps_between; lia).
    lia.
  - cbn [fold_left]. inversion Hrolls as [| ? ? Hr Hrest]; subst.
    cbn [List.length] in Hlen.
    destruct (move_ship_step galaxy self r d Hd) as [[H0 _] | (Hstep & E & _)];
      rewrite (no_detour_target galaxy self r d Hr) in *; [lia |].
    set (self1 := _move_ship galaxy self r) in *.
    assert (Hd1 : destination (ship self1) = Some d) by (rewrite E; exact Hd).
    assert (Hp1 : personality (ship self1) = personality (ship self))
      by (rewrite E; reflexivity).
    assert (Hsame : forall roll, no_detour self1 roll = no_detour self roll)
      by (intro roll; unfold no_detour; now rewrite Hp1).
    destruct (IH self1 d Hd1) as (Hpos & Hdest & Hclear).
    + eapply Forall_impl; [| exact Hrest]. intros roll H. now rewrite Hsame.
    + lia.
    + split; [exact Hpos |]. split; [exact Hdest |].
      intros roll Hroll. apply Hclear. now rewrite Hsame.
Qed.

Lemma move_ship_reaches_destination_witness :
  position (ship (fold_left (_move_ship small_galaxy) [0%Q; 0%Q; 0%Q]
                    (food_holder CAUTIOUS (Some (mkPosition 1 0 0 2)))))
    = mkPosition 1 0 0 2 /\
  destination (ship (fold_left (_move_ship small_galaxy) [0%Q; 0%Q; 0%Q]
                       (food_holder CAUTIOUS (Some (mkPosition 1 0 0 2)))))
    = Some (mkPosition 1 0 0 2) /\
  forall roll,
    no_detour (food_holder CAUTIOUS (Some (mkPosition 1 0 0 2))) roll = true ->
    _move_ship small_galaxy
      (fold_left (_move_ship small_galaxy) [0%Q; 0%Q; 0%Q]
         (food_holder CAUTIOUS (Some (mkPosition 1 0 0 2)))) roll
    = set_ship
        (fold_left (_move_ship small_galaxy) [0%Q; 0%Q; 0%Q]
           (food_holder CAUTIOUS (Some (mkPosition 1 0 0 2))))
        (set_destination
           (ship (fold_left (_move_ship small_galaxy) [0%Q; 0%Q; 0%Q]
                    (food_holder CAUTIOUS (Some (mkPosition 1 0 0 2))))) None).
Proof.
  apply (move_ship_reaches_destination small_galaxy [0%Q; 0%Q; 0%Q]
           (food_holder CAUTIOUS (Some (mkPosition 1 0 0 2))) (mkPosition 1 0 0 2)).
  - reflexivity.
  - repeat constructor.
  - reflexivity.
Defined.

(** ** World generation *)

(** The product of a multiplier in [[0.7, 1.5]] and a variance in
    [[0.9, 1.1]], scaled by a positive base price. *)
Lemma scaled_product_bounds (b s v : Q) :
  (0 < b)%Q ->
  (7 # 10 <= s)%Q -> (s <= 15 # 10)%Q ->
  (9 # 10 <= v)%Q -> (v <= 11 # 10)%Q ->
  (b * (63 # 100) <= b * s * v)%Q /\ (b * s * v <= b * (165 # 100))%Q.
Proof.
  intros Hb Hs1 Hs2 Hv1 Hv2.
  assert (H1 : ((7 # 10) * (9 # 10) <= s * v)%Q).
  { apply Qle_trans with ((7 # 10) * v)%Q;
      [apply Qmult_le_l; lra | apply Qmult_le_compat_r; lra]. }
  assert (H2 : (s * v <= (15 # 10) * (11 # 10))%Q).
  { apply Qle_trans with ((15 # 10) * v)%Q;
      [apply Qmult_le_compat_r; lra | apply Qmult_le_l; lra]. }
  setoid_replace (b * s * v)%Q with (b * (s * v))%Q by ring.
  split; apply Qmult_le_l; lra.
Qed.

(** The multipliers of [_generate_market] lie in [[0.7, 1.5]]. *)
Lemma generate_market_multiplier (ty : StationType) (draws : MarketDraws) (c : CommodityType) :
  market_draws_ok ty draws ->
  (7 # 10 <= supply_demand (_generate_market ty draws) c)%Q /\
  (supply_demand (_generate_market ty draws) c <= 15 # 10)%Q.
Proof.
  intro Hdraws. destruct (Hdraws c) as ([Hs1 Hs2] & _ & _).
  cbn [fst snd] in Hs1, Hs2.
  unfold _generate_market; cbn [supply_demand].
  destruct ty; [lra | destruct c; split; lra ..].
Qed.

(** X10: every market [_generate_market] builds is well-formed: whatever
    the station type and the draws, each price lies between 0.63 and 1.65
    times the base price, hence inside the band [[0.5 * base, 2.0 * base]],
    and each stock is at least 5 and at most 200. *)
Theorem generate_market_ok :
  forall (station_type : StationType) (draws : MarketDraws),
    market_draws_ok station_type draws ->
    let m := _generate_market station_type draws in
    market_ok m /\
    forall c,
      (inject_Z (_get_base_price c) * (63 # 100) <= commodities m c)%Q /\
      (commodities m c <= inject_Z (_get_base_price c) * (165 # 100))%Q /\
      5 <= stock_levels m c <= 200.
Proof.
  intros ty draws Hdraws m.
  assert (Htight : forall c,
    (inject_Z (_get_base_price c) * (63 # 100) <= commodities m c)%Q /\
    (commodities m c <= inject_Z (_get_base_price c) * (165 # 100))%Q /\
    5 <= stock_levels m c <= 200).
  { intro c. pose proof (generate_market_multiplier ty draws c Hdraws) as [Hm1 Hm2].
    destruct (Hdraws c) as (_ & Hstock & [Hv1 Hv2]).
    cbn [fst snd] in Hv1, Hv2.
    assert (Eprice : commodities m c
                     = (inject_Z (_get_base_price c) * supply_demand m c
                        * variance_draw draws c)%Q)
      by (destruct c; reflexivity).
    rewrite Eprice.
    destruct (scaled_product_bounds _ _ _ (base_price_posQ c) Hm1 Hm2 Hv1 Hv2)
      as [Hlo Hhi].
    split; [exact Hlo |]. split; [exact Hhi |].
    unfold randint_in in Hstock. unfold m, _generate_market; cbn [stock_levels].
    destruct ty, c; cbn [stock_range fst snd] in Hstock; lia. }
  split; [| exact Htight].
  intro c. destruct (Htight c) as (Hlo & Hhi & Hstock).
  pose proof (base_price_posQ c) as Hb.
  split; [split; lra | lia].
Qed.

Lemma generate_market_ok_witness :
  market_ok (_generate_market TRADING_POST middle_market_draws).
Proof.
  apply (generate_market_ok TRADING_POST middle_market_draws).
  intro c. unfold uniform_in, randint_in.
  destruct c; repeat split; vm_compute; discriminate.
Defined.

(** X11: every trader [spawn_ai_traders] creates starts with its books in
    order and on the grid: whatever the personality and the draws, the
    credits are positive, the hold (at most 3 units of each commodity) is
    within the cargo size, the risk tolerance and the patience are
    fractions, and the position lies in [[0, 8)] on all four coordinates. *)
Theorem spawn_ai_trader_ok :
  forall (personality : AIPersonality) (draws : TraderDraws),
    trader_draws_ok personality draws ->
    let t := spawn_ai_trader personality draws in
    ship_ok (ship t) /\ risk_ok (ship t) /\
    (0 <= patience (ship t) <= 1)%Q /\
    in_grid (position (ship t)).
Proof.
  intros p draws (Hqx & Hqy & Hsx & Hsy & [Hr1 Hr2] & [Hp1 Hp2] & [Hc1 Hc2] & Hsize & Hcargo) t.
  unfold randint_in in *; cbn [fst snd] in *.
  split; [| split; [| split]].
  - split; [| split].
    + cbn. destruct p; cbn [trait_ranges credits_range fst] in Hc1; lra.
    + intro c. cbn. apply (Hcargo c).
    + unfold total_cargo, all_commodities. cbn.
      pose proof (Hcargo FOOD). pose proof (Hcargo MINERALS).
      pose proof (Hcargo TECHNOLOGY). pose proof (Hcargo MEDICINE).
      pose proof (Hcargo LUXURIES). pose proof (Hcargo FUEL).
      destruct p; cbn [trait_ranges cargo_size_range fst snd] in Hsize; lia.
  - split; cbn; destruct p; cbn [trait_ranges risk_range fst snd] in Hr1, Hr2; lra.
  - split; cbn; destruct p; cbn [trait_ranges patience_range fst snd] in Hp1, Hp2; lra.
  - unfold in_grid. cbn. lia.
Qed.

Lemma spawn_ai_trader_ok_witness :
  ship_ok (ship (spawn_ai_trader SPECIALIST middle_trader_draws)) /\
  risk_ok (ship (spawn_ai_trader SPECIALIST middle_trader_draws)) /\
  (0 <= patience (ship (spawn_ai_trader SPECIALIST middle_trader_draws)) <= 1)%Q /\
  in_grid (position (ship (spawn_ai_trader SPECIALIST middle_trader_draws))).
Proof.
  apply (spawn_ai_trader_ok SPECIALIST middle_trader_draws).
  unfold trader_draws_ok, randint_in, uniform_in.
  repeat split; try (vm_compute; discriminate); intros; vm_compute; discriminate.
Defined.

(** ** Trade memory *)

Lemma key_eqb_eq (k key : Z * Z) :
  (fst k =? fst key) && (snd k =? snd key) = true <-> k = key.
Proof.
  destruct k, key; cbn. rewrite andb_true_iff, !Z.eqb_eq. split.
  - intros [-> ->]. reflexivity.
  - intro H. injection H as -> ->. split; reflexivity.
Qed.

Lemma memory_set_get (key : Z * Z) (value : pos_data) (memory : list ((Z * Z) * pos_data)) :
  memory_get key (memory_set key value memory) = Some value /\
  (forall k, k <> key ->
             memory_get k (memory_set key value memory) = memory_get k memory).
Proof.
  induction memory as [| [k v] rest [IH1 IH2]]; cbn.
  - split.
    + replace ((fst key =? fst key) && (snd key =? snd key)) with true
        by (symmetry; now apply key_eqb_eq).
      reflexivity.
    + intros k Hk.
      destruct ((fst key =? fst k) && (snd key =? snd k)) eqn:E; [| reflexivity].
      apply key_eqb_eq in E. congruence.
  - destruct ((fst k =? fst key) && (snd k =? snd key)) eqn:E; cbn.
    + rewrite E. split; [reflexivity |]. intros k' Hk'.
      apply key_eqb_eq in E. subst k.
      destruct ((fst key =? fst k') && (snd key =? snd k')) eqn:E'; [| reflexivity].
      apply key_eqb_eq in E'. congruence.
    + rewrite E. split; [exact IH1 |]. intros k' Hk'.
      destruct ((fst k =? fst k') && (snd k =? snd k')); [reflexivity | now apply IH2].
Qed.

Lemma memory_set_keys (key : Z * Z) (value : pos_data) (memory : list ((Z * Z) * pos_data)) :
  map fst (memory_set key value memory) =
    match memory_get key memory with
    | Some _ => map fst memory
    | None => map fst memory ++ [key]
    end.
Proof.
  induction memory as [| [k v] rest IH]; cbn; [reflexivity |].
  destruct ((fst k =? fst key) && (snd k =? snd key)) eqn:E; cbn; [reflexivity |].
  rewrite IH. destruct (memory_get key rest); reflexivity.
Qed.

Lemma memory_get_none (key : Z * Z) (memory : list ((Z * Z) * pos_data)) :
  memory_get key memory = None -> ~ In key (map fst memory).
Proof.
  induction memory as [| [k v] rest IH]; cbn; [intros _ [] |].
  destruct ((fst k =? fst key) && (snd k =? snd key)) eqn:E; [discriminate |].
  intros H [Hk | Hin]; [| now apply IH].
  subst k. assert (E' : (fst key =? fst key) && (snd key =? snd key) = true)
    by now apply key_eqb_eq.
  congruence.
Qed.

(** X12: [_update_trade_memory] keeps one entry per quadrant.  When the
    ship is at a station, the entry of the station's quadrant holds, for
    every commodity, the station's current price and the time of the
    update; every other quadrant keeps its entry; the quadrants keep their
    order, a new one going last; and no quadrant appears twice if none did
    before.  When the ship is at no station, the trader is unchanged. *)
Theorem update_trade_memory_entry :
  forall (galaxy : Galaxy) (self : AITrader) (game_time : Q),
    let self' := _update_trade_memory galaxy self game_time in
    match _get_current_station galaxy self with
    | None => self' = self
    | Some station =>
        (exists entry,
            memory_get (quadrant_of station) (trade_memory self') = Some entry /\
            forall c, entry c = Some (commodities (market station) c, game_time)) /\
        (forall k, k <> quadrant_of station ->
                   memory_get k (trade_memory self') = memory_get k (trade_memory self)) /\
        map fst (trade_memory self') =
          (match memory_get (quadrant_of station) (trade_memory self) with
           | Some _ => map fst (trade_memory self)
           | None => map fst (trade_memory self) ++ [quadrant_of station]
           end) /\
        (NoDup (map fst (trade_memory self)) -> NoDup (map fst (trade_memory self')))
    end.
Proof.
  intros galaxy self gt. cbv zeta. unfold _update_trade_memory.
  destruct (_get_current_station galaxy self) as [station |]; [| reflexivity].
  cbn [trade_memory set_trade_memory]. fold (quadrant_of station).
  set (entry := fun commodity : CommodityType =>
                  Some (commodities (market station) commodity, gt)).
  destruct (memory_set_get (quadrant_of station) entry (trade_memory self)) as [Hget Hother].
  pose proof (memory_set_keys (quadrant_of station) entry (trade_memory self)) as Hkeys.
  split; [exists entry; split; [exact Hget | reflexivity] |].
  split; [exact Hother |]. split; [exact Hkeys |].
  intro Hnd. rewrite Hkeys.
  destruct (memory_get (quadrant_of station) (trade_memory self)) eqn:E; [exact Hnd |].
  apply NoDup_app; [exact Hnd | repeat constructor; intros [] | ].
  intros k Hin [<- | []]. now apply (memory_get_none _ _ E).
Qed.

(** ** One tick: [AITrader.update] and [Galaxy.update_ai_traders] *)



















(** ** The player's commands *)

(** X15: a move of the player never overdraws the energy, and costs at
    least the distance covered: with non-negative energy before
    [move_to_position], the energy after it is non-negative and has
    dropped by at least [distance_to] between the old and the new position;
    the ship is at the position asked for, or the game is unchanged. *)
Theorem move_to_position_energy :
  forall (self : Game) (qx qy sx sy : Z),
    0 <= Player.energy (player_ship self) ->
    let self' := move_to_position self qx qy sx sy in
    0 <= Player.energy (player_ship self') /\
    distance_to (Player.position (player_ship self)) (Player.position (player_ship self'))
      <= Player.energy (player_ship self) - Player.energy (player_ship self') /\
    (Player.position (player_ship self') = mkPosition qx qy sx sy \/ self' = self).
Proof.
  intros self qx qy sx sy Hen. cbv zeta. unfold move_to_position.
  set (pos := Player.position (player_ship self)).
  set (cost := (Z.abs (qx - quadrant_x pos) + Z.abs (qy - quadrant_y pos)) * 100
               + Z.abs (sx - sector_x pos) + Z.abs (sy - sector_y pos)).
  destruct (Z.leb_spec cost (Player.energy (player_ship self))) as [Hle | Hgt].
  - cbn. split; [lia |]. split; [| now left].
    unfold distance_to; cbn.
    destruct (Z.eqb_spec (Z.abs (quadrant_x pos - qx) + Z.abs (quadrant_y pos - qy)) 0);
      unfold cost; lia.
  - split; [exact Hen |]. split; [| now right].
    fold pos. unfold distance_to. rewrite !Z.sub_diag. cbn. lia.
Qed.

Lemma move_to_position_energy_witness :
  0 <= Player.energy (player_ship (move_to_position a_game 1 0 3 4)) /\
  distance_to (Player.position (player_ship a_game))
    (Player.position (player_ship (move_to_position a_game 1 0 3 4)))
    <= Player.energy (player_ship a_game)
       - Player.energy (player_ship (move_to_position a_game 1 0 3 4)) /\
  (Player.position (player_ship (move_to_position a_game 1 0 3 4)) = mkPosition 1 0 3 4 \/
   move_to_position a_game 1 0 3 4 = a_game).
Proof.
  apply (move_to_position_energy a_game 1 0 3 4). simpl. lia.
Defined.

(** X16: [move_to_sector] is [move_to_position] inside the quadrant the
    ship is in, and there a move costs exactly the distance covered. *)
Theorem move_to_sector_is_move_to_position :
  forall (self : Game) (sx sy : Z),
    let pos := Player.position (player_ship self) in
    let self' := move_to_sector self sx sy in
    self' = move_to_position self (quadrant_x pos) (quadrant_y pos) sx sy /\
    Player.energy (player_ship self) - Player.energy (player_ship self')
      = distance_to pos (Player.position (player_ship self')).
Proof.
  intros self sx sy. cbv zeta. unfold move_to_sector, move_to_position.
  rewrite !Z.sub_diag. cbn [Z.abs Z.add Z.mul].
  set (pos := Player.position (player_ship self)).
  destruct (Z.leb_spec (Z.abs (sx - sector_x pos) + Z.abs (sy - sector_y pos))
              (Player.energy (player_ship self))) as [Hle | Hgt].
  - split; [reflexivity |]. cbn. unfold distance_to; cbn.
    rewrite !Z.sub_diag. cbn. lia.
  - split; [reflexivity |]. fold pos. unfold distance_to.
    rewrite !Z.sub_diag. cbn. lia.
Qed.

(** X17: [process_command] never calls [show_market]: every command that
    starts with [m], the commands [market] and [mk] among them, is handed
    to [handle_move_command] by the first test. *)
Theorem process_command_never_shows_market :
  (forall command : string, process_command command <> show_market) /\
  process_command "market" = handle_move_command /\
  process_command "mk" = handle_move_command.
Proof.
  split; [| split; reflexivity].
  intros command H. unfold process_command in H.
  destruct (starts_with_m command) eqn:Em; [discriminate H |].
  cbn [orb] in H.
  destruct (String.eqb command "move"); [discriminate H |].
  destruct (String.eqb command "help" || String.eqb command "h"); [discriminate H |].
  destruct (String.eqb command "scan" || String.eqb command "s"); [discriminate H |].
  destruct (String.eqb command "market" || String.eqb command "mk") eqn:E.
  - apply orb_true_iff in E. destruct E as [E | E];
      apply String.eqb_eq in E; subst command; discriminate Em.
  - destruct (String.eqb command "trade" || String.eqb command "t"); [discriminate H |].
    destruct (String.eqb command "dock" || String.eqb command "d"); [discriminate H |].
    destruct (String.eqb command "quit" || String.eqb command "q"); [discriminate H |].
    destruct (String.eqb command "save"); [discriminate H |].
    destruct (String.eqb command "status"); discriminate H.
Qed.

Lemma min_by_dist_in (rest : list (Station * Z)) :
  forall first, In (min_by_dist first rest) (first :: rest).
Proof.
  unfold min_by_dist. induction rest as [| x rest IH]; intro first; cbn [fold_left].
  - now left.
  - destruct (snd x <? snd first).
    + right. apply IH.
    + destruct (IH first) as [E | Hin]; [left; exact E | right; right; exact Hin].
Qed.

Lemma nearby_stations_in (self : Game) (s : Station) (d : Z) :
  In (s, d) (nearby_stations self) ->
  In s (stations (galaxy self)) /\
  quadrant_x (station_position s) = quadrant_x (Player.position (player_ship self)) /\
  quadrant_y (station_position s) = quadrant_y (Player.position (player_ship self)) /\
  Z.abs (sector_x (station_position s) - sector_x (Player.position (player_ship self)))
  + Z.abs (sector_y (station_position s) - sector_y (Player.position (player_ship self)))
  <= 1.
Proof.
  unfold nearby_stations. intro H. apply in_flat_map in H.
  destruct H as (x & Hx & Hin).
  destruct (Z.eqb_spec (quadrant_x (station_position x))
              (quadrant_x (Player.position (player_ship self)))) as [Eqx | Nqx];
    [| destruct Hin].
  destruct (Z.eqb_spec (quadrant_y (station_position x))
              (quadrant_y (Player.position (player_ship self)))) as [Eqy | Nqy];
    [| destruct Hin].
  cbn [andb] in Hin.
  destruct (Z.leb_spec
              (Z.abs (sector_x (station_position x)
                      - sector_x (Player.position (player_ship self)))
               + Z.abs (sector_y (station_position x)
                        - sector_y (Player.position (player_ship self)))) 1)
    as [Hle | Hgt]; [| destruct Hin].
  destruct Hin as [E | []]. injection E as <- <-. repeat split; assumption.
Qed.

Lemma nearby_stations_complete (self : Game) (s : Station) :
  In s (stations (galaxy self)) ->
  quadrant_x (station_position s) = quadrant_x (Player.position (player_ship self)) ->
  quadrant_y (station_position s) = quadrant_y (Player.position (player_ship self)) ->
  Z.abs (sector_x (station_position s) - sector_x (Player.position (player_ship self)))
  + Z.abs (sector_y (station_position s) - sector_y (Player.position (player_ship self)))
  <= 1 ->
  nearby_stations self <> [].
Proof.
  intros Hin Hqx Hqy Hd Hnil.
  assert (H : In (s, Z.abs (sector_x (station_position s)
                           - sector_x (Player.position (player_ship self)))
                     + Z.abs (sector_y (station_position s)
                              - sector_y (Player.position (player_ship self))))
                (nearby_stations self)).
  { unfold nearby_stations. apply in_flat_map. exists s. split; [exact Hin |].
    rewrite Hqx, Hqy, !Z.eqb_refl. cbn [andb].
    destruct (Z.leb_spec
                (Z.abs (sector_x (station_position s)
                        - sector_x (Player.position (player_ship self)))
                 + Z.abs (sector_y (station_position s)
                          - sector_y (Player.position (player_ship self)))) 1);
      [now left | lia]. }
  rewrite Hnil in H. destruct H.
Qed.

(** X18: [dock_at_station] moves the ship at most one sector, inside its
    quadrant and at no cost of energy, and leaves everything else as it is;
    and when some station of the quadrant is at most one sector away, the
    ship is at a station afterwards. *)
Theorem dock_at_station_docks :
  forall self : Game,
    let self' := dock_at_station self in
    let pos := Player.position (player_ship self) in
    let pos' := Player.position (player_ship self') in
    self' = set_player_ship self
              (Player.mkShip pos' (Player.energy (player_ship self))
                 (Player.cargo_hold (player_ship self))
                 (Player.max_cargo (player_ship self))
                 (Player.credits (player_ship self))) /\
    quadrant_x pos' = quadrant_x pos /\ quadrant_y pos' = quadrant_y pos /\
    distance_to pos pos' <= 1 /\
    ((exists s, In s (stations (galaxy self)) /\
                quadrant_x (station_position s) = quadrant_x pos /\
                quadrant_y (station_position s) = quadrant_y pos /\
                Z.abs (sector_x (station_position s) - sector_x pos)
                + Z.abs (sector_y (station_position s) - sector_y pos) <= 1) ->
     player_current_station self' <> None).
Proof.
  intro self. cbv zeta. unfold dock_at_station.
  assert (Hsame :
    self = set_player_ship self
             (Player.mkShip (Player.position (player_ship self))
                (Player.energy (player_ship self))
                (Player.cargo_hold (player_ship self))
                (Player.max_cargo (player_ship self))
                (Player.credits (player_ship self))))
    by (destruct self as [g [p e h m c] gt tc r]; reflexivity).
  assert (Hzero : distance_to (Player.position (player_ship self))
                    (Player.position (player_ship self)) <= 1)
    by (unfold distance_to; rewrite !Z.sub_diag; cbn; lia).
  destruct (player_current_station self) as [station |] eqn:Ecur.
  - split; [exact Hsame |]. repeat split; trivial.
    intros _. rewrite Ecur. discriminate.
  - destruct (nearby_stations self) as [| first rest] eqn:Enear.
    + split; [exact Hsame |]. repeat split; trivial.
      intros (s & Hin & Hqx & Hqy & Hd).
      exfalso. now apply (nearby_stations_complete self s Hin Hqx Hqy Hd).
    + pose proof (min_by_dist_in rest first) as Hmin. rewrite <- Enear in Hmin.
      destruct (min_by_dist first rest) as [station dist].
      apply nearby_stations_in in Hmin. destruct Hmin as (Hin & Hqx & Hqy & Hd).
      cbn [player_ship set_player_ship Player.position Player.energy Player.cargo_hold
             Player.max_cargo Player.credits quadrant_x quadrant_y].
      split; [reflexivity |]. split; [reflexivity |]. split; [reflexivity |].
      split.
      * unfold distance_to; cbn. rewrite !Z.sub_diag. cbn. lia.
      * intros _ Hnone. unfold player_current_station in Hnone.
        cbn [player_ship set_player_ship galaxy Player.position
               quadrant_x quadrant_y sector_x sector_y] in Hnone.
        pose proof (find_none _ _ Hnone station Hin) as Hf. cbn beta in Hf.
        rewrite Hqx, Hqy, !Z.eqb_refl in Hf. discriminate Hf.
Qed.

Lemma player_total_cargo_cset (s : Player.Ship) (c : CommodityType) (v : Z) :
  fold_left Z.add (map (cset (Player.cargo_hold s) c v) all_commodities) 0
  = Player.total_cargo s - Player.cargo_hold s c + v.
Proof.
  unfold Player.total_cargo, all_commodities. destruct c; cbn; lia.
Qed.


(** What [buy_goods] does: nothing, or it raises on a price of zero, or it
    buys a positive quantity within the three limits. *)
Lemma buy_goods_cases (ship : Player.Ship) (st : Station) (selected quantity : Z) :
  buy_goods ship st selected quantity = (ship, st, None) \/
  (exists e, buy_goods ship st selected quantity = (ship, st, Some e)) \/
  (exists c,
      c = nth (Z.to_nat (selected - 1)) all_commodities FOOD /\
      0 < quantity /\
      ~ (commodities (market st) c == 0)%Q /\
      quantity <= Py.int (Player.credits ship / commodities (market st) c) /\
      quantity <= Player.cargo_space_remaining ship /\
      quantity <= stock_levels (market st) c /\
      buy_goods ship st selected quantity =
        (Player.mkShip (Player.position ship) (Player.energy ship)
           (cset (Player.cargo_hold ship) c (Player.cargo_hold ship c + quantity))
           (Player.max_cargo ship)
           (Player.credits ship - inject_Z quantity * commodities (market st) c)%Q,
         set_market st (adjust_price (market st) c (- quantity)),
         None)).
Proof.
  unfold buy_goods.
  destruct ((0 <=? selected - 1) && (selected - 1 <? Py.len all_commodities));
    [| now left].
  set (c := nth (Z.to_nat (selected - 1)) all_commodities FOOD).
  unfold Py.div, Py.eqb.
  destruct (Qeq_bool (commodities (market st) c) 0) eqn:Ez.
  - right; left. eexists. reflexivity.
  - set (max_buy := Z.min (Py.int (Player.credits ship / commodities (market st) c))
                      (Z.min (Player.cargo_space_remaining ship)
                         (stock_levels (market st) c))).
    destruct (Z.leb_spec max_buy 0) as [Hle | Hgt]; [now left |].
    destruct ((0 <? quantity) && (quantity <=? max_buy)) eqn:Eq; [| now left].
    apply andb_prop in Eq. destruct Eq as [Hq1 Hq2].
    apply Z.ltb_lt in Hq1. apply Z.leb_le in Hq2.
    right; right. exists c. split; [reflexivity |]. split; [exact Hq1 |].
    split; [intro Hz; apply Qeq_bool_iff in Hz; congruence |].
    unfold max_buy in Hq2. repeat split; lia || reflexivity.
Qed.




(** Every line of the cargo list shows a commodity with the quantity held. *)
Lemma available_in (ship : Player.Ship) (c : CommodityType) (x : Z) :
  In (c, x) (available ship) -> x = Player.cargo_hold ship c /\ 0 < x.
Proof.
  unfold available. intro H. apply filter_In in H. destruct H as [Hin Hpos].
  apply in_map_iff in Hin. destruct Hin as (k & E & _).
  injection E as <- <-. cbn in Hpos. apply Z.ltb_lt in Hpos. split; [reflexivity | exact Hpos].
Qed.

(** [sell_goods] sells when a line of the cargo list is selected and the
    quantity is positive and at most the quantity of the line. *)
Lemma sell_goods_sells (ship : Player.Ship) (st : Station) (selected quantity : Z)
    (c : CommodityType) (held : Z) :
  0 <= selected - 1 < Py.len (available ship) ->
  nth (Z.to_nat (selected - 1)) (available ship) (FOOD, 0) = (c, held) ->
  0 < quantity <= held ->
  sell_goods ship st selected quantity =
    (Player.mkShip (Player.position ship) (Player.energy ship)
       (cset (Player.cargo_hold ship) c (Player.cargo_hold ship c - quantity))
       (Player.max_cargo ship)
       (Player.credits ship + inject_Z quantity * commodities (market st) c)%Q,
     set_market st (adjust_price (market st) c quantity)).
Proof.
  intros Hrange Hnth Hq. unfold sell_goods.
  set (av := available ship) in *.
  assert (Hchoice : (0 <=? selected - 1) && (selected - 1 <? Py.len av) = true)
    by (apply andb_true_iff; split; [apply Z.leb_le | apply Z.ltb_lt]; lia).
  assert (Hqty : (0 <? quantity) && (quantity <=? held) = true)
    by (apply andb_true_iff; split; [apply Z.ltb_lt | apply Z.leb_le]; lia).
  rewrite Hchoice, Hnth, Hqty.
  destruct av; [unfold Py.len in Hrange; cbn in Hrange; lia | reflexivity].
Qed.

(** X20: buying and selling back the same units never costs the player
    anything.  When [buy_goods] bought [quantity] units of a commodity whose
    price was inside its band, and the player then sells [quantity] units
    of it with [sell_goods], the hold and the stock are what they were
    before the purchase, and the credits have grown by [quantity] times the
    rise of the price the purchase caused, which is not negative. *)
Theorem buy_then_sell_back :
  forall (ship : Player.Ship) (st : Station) (selected quantity selected' : Z)
         (c : CommodityType),
    (forall k, 0 <= Player.cargo_hold ship k) ->
    price_in_band (market st) c ->
    0 < quantity ->
    let ship1 := fst (fst (buy_goods ship st selected quantity)) in
    let st1 := snd (fst (buy_goods ship st selected quantity)) in
    Player.cargo_hold ship1 c = Player.cargo_hold ship c + quantity ->
    0 <= selected' - 1 < Py.len (available ship1) ->
    fst (nth (Z.to_nat (selected' - 1)) (available ship1) (FOOD, 0)) = c ->
    let ship2 := fst (sell_goods ship1 st1 selected' quantity) in
    let st2 := snd (sell_goods ship1 st1 selected' quantity) in
    (forall k, Player.cargo_hold ship2 k = Player.cargo_hold ship k) /\
    (forall k, stock_levels (market st2) k = stock_levels (market st) k) /\
    (commodities (market st) c <= commodities (market st1) c)%Q /\
    (Player.credits ship2
     == Player.credits ship
        + inject_Z quantity * (commodities (market st1) c - commodities (market st) c))%Q /\
    (Player.credits ship <= Player.credits ship2)%Q.
Proof.
  intros ship st selected quantity selected' c Hcargo Hband Hq ship1 st1 Hbought
    Hrange Hline ship2 st2.
  (* the purchase *)
  assert (Hbuy :
    quantity <= stock_levels (market st) c /\
    ship1 = Player.mkShip (Player.position ship) (Player.energy ship)
              (cset (Player.cargo_hold ship) c (Player.cargo_hold ship c + quantity))
              (Player.max_cargo ship)
              (Player.credits ship - inject_Z quantity * commodities (market st) c)%Q /\
    st1 = set_market st (adjust_price (market st) c (- quantity))).
  { unfold ship1, st1 in *.
    destruct (buy_goods_cases ship st selected quantity)
      as [E | [[e E] | (c' & _ & _ & _ & _ & _ & Hst & E)]];
      rewrite E in *; cbn [fst snd] in *; try lia.
    destruct (CommodityType_eq_dec c c') as [<- | Hc]; [repeat split; assumption |].
    cbn [Player.cargo_hold] in Hbought. rewrite cset_other in Hbought by exact Hc. lia. }
  destruct Hbuy as (Hst & E1 & Est1).
  pose proof (proj1 (price_moves (market st) c (- quantity) Hband) ltac:(lia)) as Hrise.
  (* the line selected in the cargo list *)
  assert (Hnth : nth (Z.to_nat (selected' - 1)) (available ship1) (FOOD, 0)
                 = (c, Player.cargo_hold ship1 c)).
  { assert (Hin : In (nth (Z.to_nat (selected' - 1)) (available ship1) (FOOD, 0))
                    (available ship1))
      by (apply nth_In; unfold Py.len in Hrange; lia).
    destruct (nth (Z.to_nat (selected' - 1)) (available ship1) (FOOD, 0)) as [k x].
    cbn [fst] in Hline. subst k. apply available_in in Hin. destruct Hin as [-> _].
    reflexivity. }
  (* the sale *)
  assert (Hsell :
    sell_goods ship1 st1 selected' quantity =
      (Player.mkShip (Player.position ship1) (Player.energy ship1)
         (cset (Player.cargo_hold ship1) c (Player.cargo_hold ship1 c - quantity))
         (Player.max_cargo ship1)
         (Player.credits ship1 + inject_Z quantity * commodities (market st1) c)%Q,
       set_market st1 (adjust_price (market st1) c quantity))).
  { apply sell_goods_sells with (held := Player.cargo_hold ship1 c);
      [exact Hrange | exact Hnth |].
    rewrite Hbought. specialize (Hcargo c). lia. }
  unfold ship2, st2. rewrite Hsell. cbn [fst snd].
  rewrite E1, Est1 in *. cbn [Player.cargo_hold Player.credits market set_market] in *.
  split; [| split; [| split; [exact Hrise | split]]].
  - intro k. unfold cset. destruct (CommodityType_eqb k c) eqn:Ek; [| reflexivity].
    apply CommodityType_eqb_eq in Ek. subst k. rewrite CommodityType_eqb_refl. lia.
  - intro k. destruct (CommodityType_eq_dec k c) as [-> | Hk].
    + rewrite !adjust_price_stock. lia.
    + destruct (adjust_price_other (adjust_price (market st) c (- quantity)) c k quantity Hk)
        as [_ ->].
      now destruct (adjust_price_other (market st) c k (- quantity) Hk) as [_ ->].
  - ring.
  - assert (HqQ : (0 <= inject_Z quantity)%Q)
      by (change 0%Q with (inject_Z 0); rewrite <- Zle_Qle; lia).
    assert (0 <= inject_Z quantity
                 * (commodities (adjust_price (market st) c (- quantity)) c
                    - commodities (market st) c))%Q
      by (apply Qmult_le_0_compat; lra).
    lra.
Qed.

Lemma buy_then_sell_back_witness :
  (forall k, Player.cargo_hold (fst after_sale) k = Player.cargo_hold a_player k) /\
  (forall k, stock_levels (market (snd after_sale)) k
             = stock_levels (market near_station) k) /\
  (commodities (market near_station) MINERALS
   <= commodities (market (snd (fst after_purchase))) MINERALS)%Q /\
  (Player.credits (fst after_sale)
   == Player.credits a_player
      + inject_Z 10 * (commodities (market (snd (fst after_purchase))) MINERALS
                       - commodities (market near_station) MINERALS))%Q /\
  (Player.credits a_player <= Player.credits (fst after_sale))%Q.
Proof.
  apply (buy_then_sell_back a_player near_station 2 10 1 MINERALS).
  - intro k. simpl. lia.
  - split; vm_compute; discriminate.
  - lia.
  - reflexivity.
  - vm_compute. split; [discriminate | reflexivity].
  - reflexivity.
Defined.

(** What [sell_goods] does: nothing, or it sells a positive quantity, at
    most the quantity held, of a commodity of the cargo list. *)
Lemma sell_goods_cases (ship : Player.Ship) (st : Station) (selected quantity : Z) :
  sell_goods ship st selected quantity = (ship, st) \/
  exists c,
    0 < quantity <= Player.cargo_hold ship c /\
    sell_goods ship st selected quantity =
      (Player.mkShip (Player.position ship) (Player.energy ship)
         (cset (Player.cargo_hold ship) c (Player.cargo_hold ship c - quantity))
         (Player.max_cargo ship)
         (Player.credits ship + inject_Z quantity * commodities (market st) c)%Q,
       set_market st (adjust_price (market st) c quantity)).
Proof.
  unfold sell_goods.
  set (av := available ship).
  assert (Hav : forall c held, In (c, held) av -> held = Player.cargo_hold ship c)
    by (intros c held Hin; now apply available_in in Hin).
  destruct ((0 <=? selected - 1) && (selected - 1 <? Py.len av)) eqn:Ec;
    [| destruct av; now left].
  apply andb_prop in Ec. destruct Ec as [Hc1 Hc2].
  apply Z.leb_le in Hc1. apply Z.ltb_lt in Hc2.
  assert (Hin : In (nth (Z.to_nat (selected - 1)) av (FOOD, 0)) av)
    by (apply nth_In; unfold Py.len in Hc2; lia).
  destruct (nth (Z.to_nat (selected - 1)) av (FOOD, 0)) as [c held].
  rewrite (Hav c held Hin).
  destruct ((0 <? quantity) && (quantity <=? Player.cargo_hold ship c)) eqn:Eq;
    [| destruct av; now left].
  apply andb_prop in Eq. destruct Eq as [Hq1 Hq2].
  apply Z.ltb_lt in Hq1. apply Z.leb_le in Hq2.
  destruct av as [| item items]; [destruct Hin |].
  right. exists c. split; [lia | reflexivity].
Qed.

(** X21: a sale of the player keeps the books in order and conserves goods.
    From books in order and a well-formed market, after [sell_goods] the
    credits and the cargo are non-negative, the hold is within capacity,
    the market is well-formed, and for every commodity the units in the
    hold plus the units in stock are what they were. *)
Theorem sell_goods_books :
  forall (ship : Player.Ship) (st : Station) (selected quantity : Z),
    player_ok ship ->
    market_ok (market st) ->
    let ship' := fst (sell_goods ship st selected quantity) in
    let st' := snd (sell_goods ship st selected quantity) in
    player_ok ship' /\
    market_ok (market st') /\
    forall c,
      Player.cargo_hold ship' c + stock_levels (market st') c
        = Player.cargo_hold ship c + stock_levels (market st) c.
Proof.
  intros ship st selected quantity Hok Hm. cbv zeta.
  destruct (sell_goods_cases ship st selected quantity) as [E | (c & Hq & E)];
    rewrite E; cbn [fst snd];
    [split; [exact Hok | split; [exact Hm | reflexivity]] |].
  destruct Hok as (Hcr & Hcargo & Htot).
  split; [split; [| split] | split].
  - cbn [Player.credits].
    pose proof (band_price_nonneg (market st) c (proj1 (Hm c))) as Hp.
    assert (HqQ : (0 <= inject_Z quantity)%Q)
      by (change 0%Q with (inject_Z 0); rewrite <- Zle_Qle; lia).
    pose proof (Qmult_le_0_compat _ _ HqQ Hp). lra.
  - intro k. cbn [Player.cargo_hold]. unfold cset.
    destruct (CommodityType_eqb k c); [lia | apply Hcargo].
  - unfold Player.total_cargo. cbn [Player.cargo_hold Player.max_cargo].
    rewrite player_total_cargo_cset. lia.
  - cbn [market set_market]. now apply adjust_price_market_ok.
  - intro k. cbn [Player.cargo_hold market set_market].
    destruct (CommodityType_eq_dec k c) as [-> | Hk].
    + rewrite cset_same, adjust_price_stock. destruct (Hm c) as [_ Hs]. lia.
    + destruct (adjust_price_other (market st) c k quantity Hk) as [_ Es].
      rewrite Es, cset_other by exact Hk. reflexivity.
Qed.

Lemma sell_goods_books_witness :
  player_ok (fst after_sale) /\
  market_ok (market (snd after_sale)) /\
  forall c,
    Player.cargo_hold (fst after_sale) c + stock_levels (market (snd after_sale)) c
    = Player.cargo_hold (fst (fst after_purchase)) c
      + stock_levels (market (snd (fst after_purchase))) c.
Proof.
  apply (sell_goods_books (fst (fst after_purchase)) (snd (fst after_purchase)) 1 10).
  - split; [vm_compute; discriminate |].
    split; [intros []; vm_compute; discriminate | vm_compute; discriminate].
  - intro c. split; [| destruct c; vm_compute; discriminate].
    destruct c; split; vm_compute; discriminate.
Defined.

(** X22: the trend refresh reads the memory only: it leaves the ship, the
    memory, the profit history and the last analysis time alone, and
    running it a second time changes no trend. *)
Theorem analyze_market_trends_idempotent :
  forall (t : AITrader),
    let t' := _analyze_market_trends t in
    ship t' = ship t /\
    trade_memory t' = trade_memory t /\
    profit_history t' = profit_history t /\
    last_analysis_time t' = last_analysis_time t /\
    forall c, market_analysis (_analyze_market_trends t') c = market_analysis t' c.
Proof.
  intro t. cbv zeta.
  assert (Hfold : forall cs t0,
    ship (fold_left analyze_step cs t0) = ship t0 /\
    trade_memory (fold_left analyze_step cs t0) = trade_memory t0 /\
    profit_history (fold_left analyze_step cs t0) = profit_history t0 /\
    last_analysis_time (fold_left analyze_step cs t0) = last_analysis_time t0).
  { induction cs as [| c cs IH]; intro t0; cbn [fold_left]; [repeat split |].
    destruct (IH (analyze_step t0 c)) as (H1 & H2 & H3 & H4).
    rewrite H1, H2, H3, H4. unfold analyze_step.
    destruct (2 <=? Py.len (remembered_prices t0 c)); repeat split. }
  destruct (Hfold all_commodities t) as (H1 & H2 & H3 & H4).
  fold (_analyze_market_trends t) in H1, H2, H3, H4.
  split; [exact H1 |]. split; [exact H2 |]. split; [exact H3 |]. split; [exact H4 |].
  intro c. unfold _analyze_market_trends at 1. rewrite analyze_fold.
  assert (Hp : remembered_prices (_analyze_market_trends t) c = remembered_prices t c)
    by (unfold remembered_prices; now rewrite H2).
  rewrite Hp.
  destruct (cmem c all_commodities && (2 <=? Py.len (remembered_prices t c))) eqn:E;
    [| reflexivity].
  unfold _analyze_market_trends. rewrite analyze_fold, E. reflexivity.
Qed.
